(** * tos_data_scraper: a model of [src/web_scraper/tos_data_scraper.py]

    The script logs into the ToS;DR editing site, walks the paginated
    listing of services, collects one link per table row and saves the
    links to a CSV file.

    The embedding follows the script function by function.  Everything
    the script touches outside of itself is explicit state:

    - the remote site is a state machine ([Server], [handle]); cookies
      kept by [requests.Session] are part of that state, since they
      are determined by the earlier responses;
    - [BeautifulSoup(text, 'html.parser')] is a parameter
      [html_parser], its result is a tree of [Node]s searched with the
      document-order traversal of bs4;
    - logging, [time.sleep] and the file system are fields of [World];
    - Python exceptions are the [Raise] outcome of the monad [M], which
      also records the calls made on the session: for each call of
      [session.get] or [session.post], the request as the script
      issues it and the response the call returns.  When [requests]
      follows redirects inside a call, that response is the last one;
      the hops in between are not listed.

    Transport failures of [requests] (a call that returns no response)
    and I/O failures of [open] and of the csv writer are outside the
    model: every call is answered and every write succeeds.  What is
    proved about the files after the write phase holds for runs whose
    writes succeed. *)

From stdpp Require Import base option list strings gmap pretty.
From Stdlib Require Import ZArith Lia Ascii.

Open Scope Z_scope.

(** ** Module constants (lines 13-17) *)

Definition BASE_URL : string := "https://edit.tosdr.org".
Definition LOGIN_URL : string := BASE_URL +:+ "/users/sign_in".
Definition SERVICES_URL : string := BASE_URL +:+ "/services".
Definition DELAY : Z := 5.
Definition TOTAL_PAGES : Z := 328.

(** ** Parsed HTML, as bs4 presents it

    A [Tag] carries its name, the value of its multi-valued [class]
    attribute as the list of class tokens (empty when the attribute is
    missing), its remaining attributes as a dictionary from attribute
    name to string value, and its children. *)

#[warnings="-register-all"]
Inductive Node : Type :=
| NavigableString (s : string)
| Tag (name : string) (class_ : list string)
      (attrs : gmap string string) (contents : list Node).

(** [Tag.descendants]: every node below [n], in document order, [n]
    itself excluded. *)
Fixpoint descendants (n : Node) : list Node :=
  match n with
  | NavigableString _ => []
  | Tag _ _ _ cs => flat_map (fun c => c :: descendants c) cs
  end.

Definition tag_name (n : Node) : option string :=
  match n with
  | NavigableString _ => None
  | Tag name _ _ _ => Some name
  end.

Definition tag_class (n : Node) : list string :=
  match n with
  | NavigableString _ => []
  | Tag _ cls _ _ => cls
  end.

(** [tag[key]]: [None] stands for the [KeyError] of a missing key. *)
Definition tag_getitem (n : Node) (key : string) : option string :=
  match n with
  | NavigableString _ => None
  | Tag _ _ attrs _ => attrs !! key
  end.

(** The three search criteria the script uses. *)
Definition is_named (name : string) (n : Node) : bool :=
  bool_decide (tag_name n = Some name).

(** [class_='c']: some class token of the tag equals [c]. *)
Definition has_class (c : string) (n : Node) : bool :=
  bool_decide (c ∈ tag_class n).

(** [{'name': v}]: the attribute is present with exactly that value. *)
Definition has_attr (key v : string) (n : Node) : bool :=
  bool_decide (tag_getitem n key = Some v).

(** [find_all] and [find] with an arbitrary criterion: [find] is the
    first result of [find_all], [None] when there is none. *)
Definition find_all (crit : Node -> bool) (n : Node) : list Node :=
  List.filter crit (descendants n).

Definition find (crit : Node -> bool) (n : Node) : option Node :=
  head (find_all crit n).

(** [soup.find('input', {'name': 'authenticity_token'})] *)
Definition is_token_input (n : Node) : bool :=
  is_named "input" n && has_attr "name" "authenticity_token" n.

(** [soup.find_all('tr', class_='toSort')] *)
Definition is_sortable_row (n : Node) : bool :=
  is_named "tr" n && has_class "toSort" n.

(** [row.find('td', class_='text-right')] *)
Definition is_right_cell (n : Node) : bool :=
  is_named "td" n && has_class "text-right" n.

(** [tag.a], that is [tag.find('a')] *)
Definition dot_a (n : Node) : option Node := find (is_named "a") n.

(** ** HTTP exchanges *)

Inductive Method := GET | POST.

Record Request := {
  method : Method;
  url : string;
  data : list (string * string)
}.

Record Response := {
  status_code : Z;
  text : string
}.

(** ** Exceptions and outcomes *)

Inductive exn :=
| HTTPError (status : Z)
| KeyError (key : string)
| AttributeError (attr : string).

Inductive result (A : Type) :=
| Ok (a : A)
| Raise (e : exn).
Arguments Ok {A} a.
Arguments Raise {A} e.

Inductive Level := INFO | ERROR.

(** ** The csv module, default (excel) dialect

    Fields are separated by a comma, a record ends with CR LF, and a
    field is quoted exactly when it contains the delimiter, the quote
    character or one of the line-terminator characters; inside quotes
    the quote character is doubled.  A record made of a single empty
    field is written as two quote characters. *)

Definition dquote : ascii := "034"%char.
Definition CR : ascii := "013"%char.
Definition LF : ascii := "010"%char.
Definition comma : ascii := ","%char.

Definition lineterminator : string := String CR (String LF EmptyString).

Definition csv_special (c : ascii) : bool :=
  bool_decide (c = comma) || bool_decide (c = dquote)
  || bool_decide (c = CR) || bool_decide (c = LF).

Fixpoint string_exists (p : ascii -> bool) (s : string) : bool :=
  match s with
  | EmptyString => false
  | String c s' => p c || string_exists p s'
  end.

Fixpoint double_quotes (s : string) : string :=
  match s with
  | EmptyString => EmptyString
  | String c s' =>
      if bool_decide (c = dquote)
      then String dquote (String dquote (double_quotes s'))
      else String c (double_quotes s')
  end.

Definition csv_field (s : string) : string :=
  if string_exists csv_special s
  then String dquote (double_quotes s) +:+ String dquote EmptyString
  else s.

Fixpoint csv_join (fields : list string) : string :=
  match fields with
  | [] => EmptyString
  | [f] => f
  | f :: fs => f +:+ String comma (csv_join fs)
  end.

Definition csv_record (row : list string) : string :=
  match row with
  | [EmptyString] =>
      String dquote (String dquote EmptyString) +:+ lineterminator
  | _ => csv_join (csv_field <$> row) +:+ lineterminator
  end.

(** ** A table-driven site and parser for the examples

    The examples run the script against a site that answers from a
    fixed table of addresses (404 for every other address) and a parser
    that maps the text of a page to its tree through another table. *)

Module Fixture.

Definition Site : Type := list (Method * string * Response).

Definition same_method (a b : Method) : bool :=
  match a, b with
  | GET, GET | POST, POST => true
  | _, _ => false
  end.

Definition not_found : Response := {| status_code := 404; text := "not found" |}.

Fixpoint answer (site : Site) (m : Method) (u : string) : Response :=
  match site with
  | [] => not_found
  | (m', u', r) :: site' =>
      if same_method m m' && String.eqb u u' then r else answer site' m u
  end.

Definition handle (site : Site) (req : Request) : Response * Site :=
  (answer site (method req) (url req), site).

Definition document (contents : list Node) : Node := Tag "[document]" [] ∅ contents.

Fixpoint parse_with (docs : list (string * Node)) (txt : string) : Node :=
  match docs with
  | [] => document []
  | (t, n) :: docs' => if String.eqb t txt then n else parse_with docs' txt
  end.

(** Login pages: with a token, with a token field lacking its value,
    without a token field. *)
Definition token_input : Node :=
  Tag "input" [] {[ "name" := "authenticity_token"; "value" := "tok123" ]} [].
Definition bare_token_input : Node :=
  Tag "input" [] {[ "name" := "authenticity_token" ]} [].
Definition email_input : Node :=
  Tag "input" ["form-control"] {[ "name" := "user[email]" ]} [].

Definition login_page : Node :=
  document [Tag "form" [] ∅ [email_input; token_input]].
Definition login_page_bare : Node :=
  document [Tag "form" [] ∅ [email_input; bare_token_input]].
Definition login_page_plain : Node :=
  document [Tag "form" [] ∅ [email_input]].

(** Rows of the listing: with a link, with an empty right cell,
    without a right cell, with an anchor lacking its href. *)
Definition anchor (href : string) : Node :=
  Tag "a" ["btn"] {[ "href" := href ]} [NavigableString "View"].

Definition linked_row (title href : string) : Node :=
  Tag "tr" ["toSort"] ∅
    [Tag "td" [] ∅ [NavigableString title];
     Tag "td" ["text-right"] ∅ [anchor href]].

Definition unlinked_row (title : string) : Node :=
  Tag "tr" ["toSort"] ∅
    [Tag "td" [] ∅ [NavigableString title];
     Tag "td" ["text-right"] ∅ [NavigableString "n/a"]].

Definition cell_less_row (title : string) : Node :=
  Tag "tr" ["toSort"] ∅ [Tag "td" [] ∅ [NavigableString title]].

Definition href_less_row (title : string) : Node :=
  Tag "tr" ["toSort"] ∅
    [Tag "td" [] ∅ [NavigableString title];
     Tag "td" ["text-right"] ∅ [Tag "a" ["btn"] ∅ [NavigableString "View"]]].

Definition listing (rows : list Node) : Node :=
  document [Tag "table" ["table"] ∅
              [Tag "tr" [] ∅ [Tag "th" [] ∅ [NavigableString "Service"]];
               Tag "tbody" [] ∅ rows]].

Definition page_one : Node :=
  listing [linked_row "Alpha" "/services/1"; linked_row "Beta" "/services/2"].
Definition page_two : Node := listing [].
Definition page_three : Node :=
  listing [unlinked_row "Gamma"; linked_row "Delta" "/services/4"].
Definition page_cell_less : Node :=
  listing [linked_row "Alpha" "/services/1"; cell_less_row "Broken"].
Definition page_href_less : Node :=
  listing [href_less_row "Epsilon"].

Definition parser : string -> Node :=
  parse_with
    [("login", login_page); ("login-bare", login_page_bare);
     ("login-plain", login_page_plain);
     ("one", page_one); ("two", page_two); ("three", page_three);
     ("cell-less", page_cell_less); ("href-less", page_href_less)].

Definition ok (body : string) : Response := {| status_code := 200; text := body |}.
Definition status (code : Z) : Response := {| status_code := code; text := "error" |}.

(** A site whose login works and whose listing has the three pages. *)
Definition login_routes : Site :=
  [(GET, LOGIN_URL, ok "login"); (POST, LOGIN_URL, ok "welcome")].

Definition good_site : Site :=
  login_routes ++
  [(GET, SERVICES_URL, ok "one");
   (GET, SERVICES_URL +:+ "?page=2", ok "two");
   (GET, SERVICES_URL +:+ "?page=3", ok "three")].

(** The same site with an unavailable login page, with a login that
    is refused, and with a second page that is unavailable. *)
Definition down_site : Site := [(GET, LOGIN_URL, status 500)].

Definition refusing_site : Site :=
  [(GET, LOGIN_URL, ok "login"); (POST, LOGIN_URL, status 401);
   (GET, SERVICES_URL, ok "one")].

Definition flaky_site : Site :=
  login_routes ++
  [(GET, SERVICES_URL, ok "one");
   (GET, SERVICES_URL +:+ "?page=2", status 503);
   (GET, SERVICES_URL +:+ "?page=3", ok "three")].

(** A site that has more pages than [good_site]. *)
Definition larger_site : Site :=
  good_site ++ [(GET, SERVICES_URL +:+ "?page=4", ok "one")].

End Fixture.

(** More pages and sites for the examples of the further properties. *)

Module MoreFixtures.

Import Fixture.

Definition first_token : Node :=
  Tag "input" [] {[ "name" := "authenticity_token"; "value" := "first" ]} [].
Definition second_token : Node :=
  Tag "input" [] {[ "name" := "authenticity_token"; "value" := "second" ]} [].
Definition empty_token : Node :=
  Tag "input" [] {[ "name" := "authenticity_token"; "value" := EmptyString ]} [].

Definition login_form_twice : Node := Tag "form" [] ∅ [email_input; first_token; second_token].
Definition login_page_twice : Node := document [login_form_twice].
Definition login_page_empty : Node :=
  document [Tag "form" [] ∅ [email_input; empty_token]].

Definition page_unlinked : Node :=
  listing [unlinked_row "Zeta"; unlinked_row "Eta"].

Definition parser : string -> Node :=
  parse_with
    [("login-twice", login_page_twice); ("login-empty", login_page_empty);
     ("unlinked", page_unlinked); ("login", login_page); ("one", page_one);
     ("cell-less", page_cell_less)].

(** A site with all the 328 pages of the script, each like page one. *)
Definition full_site : Site :=
  login_routes ++
  ((fun page => (GET, SERVICES_URL +:+ (if 1 <? page then "?page=" +:+ pretty page
                                         else EmptyString), ok "one"))
     <$> seqZ 1 TOTAL_PAGES).

End MoreFixtures.

(** ** The world of one run and the monad of the script *)

Section Scraper.

(** The remote site: a deterministic state machine answering one
    request at a time. *)
Context {Server : Type}.
Variable handle : Server -> Request -> Response * Server.

(** [BeautifulSoup(text, 'html.parser')] *)
Variable html_parser : string -> Node.

Record World := {
  remote : Server;
  session_open : bool;             (* inside [with requests.Session()] *)
  logs : list (Level * string);    (* logging output, oldest first *)
  slept : Z;                       (* seconds spent in [time.sleep] *)
  files : gmap string string       (* file name to file contents *)
}.

(** A computation maps the world to its outcome, the world it leaves
    and the calls it made on the session, oldest first: one entry per
    call of [session.get] or [session.post], with the request issued
    and the response returned. *)
Definition Traffic : Type := list (Request * Response).
Definition M (A : Type) : Type := World -> result A * World * Traffic.

Definition ret {A} (a : A) : M A := fun w => (Ok a, w, []).

Definition bind {A B} (c : M A) (k : A -> M B) : M B :=
  fun w =>
    match c w with
    | (Ok a, w1, t1) => let '(r, w2, t2) := k a w1 in (r, w2, t1 ++ t2)
    | (Raise e, w1, t1) => (Raise e, w1, t1)
    end.

Definition raise {A} (e : exn) : M A := fun w => (Raise e, w, []).

#[local] Instance M_ret : MRet M := @ret.
#[local] Instance M_bind : MBind M := fun A B k c => bind c k.

(** A [for] loop whose body updates one local variable. *)
Fixpoint for_each {A S} (xs : list A) (body : A -> S -> M S) (s : S) : M S :=
  match xs with
  | [] => ret s
  | x :: xs' => s' ← body x s; for_each xs' body s'
  end.

(** [range(a, b)] *)
Definition range (a b : Z) : list Z := seqZ a (b - a).

(** *** Primitive effects *)

(** One call on the session: the site answers the request as issued,
    and [resp] is the response object the call returns. *)
Definition session_request (req : Request) : M Response :=
  fun w =>
    let (resp, srv') := handle (remote w) req in
    (Ok resp,
     {| remote := srv';
        session_open := session_open w;
        logs := logs w;
        slept := slept w;
        files := files w |},
     [(req, resp)]).

Definition session_get (u : string) : M Response :=
  session_request {| method := GET; url := u; data := [] |}.

Definition session_post (u : string) (payload : list (string * string)) : M Response :=
  session_request {| method := POST; url := u; data := payload |}.

(** [Response.raise_for_status]: [HTTPError] for a 4xx or 5xx status,
    nothing otherwise. *)
Definition is_error_status (s : Z) : bool := (400 <=? s) && (s <? 600).

Definition raise_for_status (r : Response) : M unit :=
  if is_error_status (status_code r) then raise (HTTPError (status_code r))
  else ret tt.

Definition logging (lvl : Level) (msg : string) : M unit :=
  fun w =>
    (Ok tt,
     {| remote := remote w;
        session_open := session_open w;
        logs := logs w ++ [(lvl, msg)];
        slept := slept w;
        files := files w |},
     []).

Definition time_sleep (secs : Z) : M unit :=
  fun w =>
    (Ok tt,
     {| remote := remote w;
        session_open := session_open w;
        logs := logs w;
        slept := slept w + secs;
        files := files w |},
     []).

Definition set_session (b : bool) (w : World) : World :=
  {| remote := remote w;
     session_open := b;
     logs := logs w;
     slept := slept w;
     files := files w |}.

(** [with requests.Session() as session: body]: the session is closed
    on every way out of the block, an exception included. *)
Definition with_session {A} (body : M A) : M A :=
  fun w =>
    let '(r, w', t) := body (set_session true w) in (r, set_session false w', t).

Definition set_files (fs : gmap string string) (w : World) : World :=
  {| remote := remote w;
     session_open := session_open w;
     logs := logs w;
     slept := slept w;
     files := fs |}.

(** [open(filename, 'w', newline='')]: the file is created, or
    emptied when it exists.  An [open] that fails is not modelled. *)
Definition open_w (filename : string) : M unit :=
  fun w => (Ok tt, set_files (<[filename := EmptyString]> (files w)) w, []).

(** [writer.writerow(row)] on the writer of the open file: the
    record is appended to what has been written.  A write that fails
    is not modelled. *)
Definition writerow (filename : string) (row : list string) : M unit :=
  fun w =>
    (Ok tt,
     set_files (alter (fun s => s +:+ csv_record row) filename (files w)) w,
     []).

(** ** The script *)

(** Truth value of [str | None], as tested by [if not csrf_token]. *)
Definition truthy (v : option string) : bool :=
  match v with
  | None => false
  | Some s => negb (bool_decide (s = EmptyString))
  end.

(** Lines 22-42.  A bs4 tag is always true, so [if not token_input]
    tests for [None] only. *)
Definition fetch_csrf_token : M (option string) :=
  response ← session_get LOGIN_URL;
  raise_for_status response;;
  let soup := html_parser (text response) in
  let token_input := find is_token_input soup in
  match token_input with
  | None =>
      logging ERROR "Failed to retrieve CSRF token.";;
      ret None
  | Some token_input =>
      match tag_getitem token_input "value" with
      | None => raise (KeyError "value")
      | Some v => ret (Some v)
      end
  end.

(** Lines 44-71. *)
Definition login (email password : string) : M bool :=
  csrf_token ← fetch_csrf_token;
  if negb (truthy csrf_token) then ret false
  else
    let payload :=
      [("user[email]", email);
       ("user[password]", password);
       ("authenticity_token", default EmptyString csrf_token)] in
    response ← session_post LOGIN_URL payload;
    if negb (status_code response =? 200) then
      logging ERROR
        ("Login failed with status code " +:+ pretty (status_code response) +:+ ".");;
      ret false
    else ret true.

(** Lines 85-87: the address of a page of the listing. *)
Definition page_url (page_number : Z) : string :=
  if 1 <? page_number
  then SERVICES_URL +:+ "?page=" +:+ pretty page_number
  else SERVICES_URL.

(** Lines 97-99: the body of the loop over the rows.  The attribute
    [.a] is read off the result of [row.find], [None] included. *)
Definition scrape_row (row : Node) (links : list string) : M (list string) :=
  match find is_right_cell row with
  | None => raise (AttributeError "a")
  | Some cell =>
      match dot_a cell with
      | None => ret links
      | Some link_elem =>
          match tag_getitem link_elem "href" with
          | None => raise (KeyError "href")
          | Some href => ret (links ++ [BASE_URL +:+ href])
          end
      end
  end.

(** Lines 73-102. *)
Definition scrape_page (page_number : Z) : M (list string) :=
  response ← session_get (page_url page_number);
  raise_for_status response;;
  let soup := html_parser (text response) in
  let rows := find_all is_sortable_row soup in
  links ← for_each rows scrape_row [];
  time_sleep DELAY;;
  ret links.

Definition filename : string := "tos_links.csv".

(** The world at the start of a run: a site, the files on disk, and
    nothing logged yet. *)
Definition start (srv : Server) (fs : gmap string string) : World :=
  {| remote := srv; session_open := false; logs := []; slept := 0; files := fs |}.

(** Lines 104-130, with the number of pages as a parameter; [None]
    out of the [with] block is the early [return] of line 116. *)
Definition main_on (total_pages : Z) : M unit :=
  let email := "YOUR_EMAIL" in
  let password := "YOUR_PASSWORD" in
  collected ← with_session (
    ok ← login email password;
    if negb ok then
      logging ERROR "Login failed. Exiting.";;
      ret None
    else
      tos_links ← for_each (range 1 (total_pages + 1))
                     (fun page tos_links =>
                        links ← scrape_page page;
                        ret (tos_links ++ links)) [];
      ret (Some tos_links));
  match collected with
  | None => ret tt
  | Some tos_links =>
      open_w filename;;
      writerow filename ["ToS Links"];;
      for_each tos_links (fun link _ => writerow filename [link]) tt;;
      logging INFO ("Links saved to " +:+ filename)
  end.

Definition main : M unit := main_on TOTAL_PAGES.

(** *** Reading an outcome *)

Definition res {A} (o : result A * World * Traffic) : result A := o.1.1.
Definition final {A} (o : result A * World * Traffic) : World := o.1.2.
Definition trace {A} (o : result A * World * Traffic) : Traffic := o.2.

(** The two requests of the login, and the request of a page. *)
Definition get (u : string) : Request := {| method := GET; url := u; data := [] |}.

Definition post_login (email password token : string) : Request :=
  {| method := POST; url := LOGIN_URL;
     data := [("user[email]", email); ("user[password]", password);
              ("authenticity_token", token)] |}.

(** The world once the site has answered and moved to [srv]. *)
Definition answered (srv : Server) (w : World) : World :=
  {| remote := srv; session_open := session_open w; logs := logs w;
     slept := slept w; files := files w |}.

Definition logged (lvl : Level) (msg : string) (w : World) : World :=
  {| remote := remote w; session_open := session_open w;
     logs := logs w ++ [(lvl, msg)]; slept := slept w; files := files w |}.

Definition rested (secs : Z) (w : World) : World :=
  {| remote := remote w; session_open := session_open w;
     logs := logs w; slept := slept w + secs; files := files w |}.

(** *** What the properties speak about *)

(** The anchor of a row where the script looks for it: the first [a]
    below the first right-aligned cell of the row. *)
Definition row_anchor (row : Node) : option Node :=
  find is_right_cell row ≫= dot_a.

(** The link of a row: the base address followed by the [href] of its
    anchor. *)
Definition row_link (row : Node) : option string :=
  a ← row_anchor row; href ← tag_getitem a "href"; Some (BASE_URL +:+ href).

(** A row the loop of [scrape_page] gets through: it has a
    right-aligned cell, and its anchor, if any, has an [href]. *)
Definition well_formed_row (row : Node) : Prop :=
  is_Some (find is_right_cell row) /\
  forall a, row_anchor row = Some a -> is_Some (tag_getitem a "href").

(** The two phases of [main] after the login: the loop over the pages
    and the writing of the file. *)
Definition scrape_pages (pages : list Z) (tos_links : list string) : M (list string) :=
  for_each pages
    (fun page tos_links => links ← scrape_page page; ret (tos_links ++ links))
    tos_links.

Definition save (tos_links : list string) : M unit :=
  open_w filename;;
  writerow filename ["ToS Links"];;
  for_each tos_links (fun link _ => writerow filename [link]) tt;;
  logging INFO ("Links saved to " +:+ filename).

(** The [with] block of [main]: [None] for the early return,
    otherwise the links collected. *)
Definition collect (total_pages : Z) : M (option (list string)) :=
  with_session (
    ok ← login "YOUR_EMAIL" "YOUR_PASSWORD";
    if negb ok then
      logging ERROR "Login failed. Exiting.";;
      ret None
    else
      tos_links ← scrape_pages (range 1 (total_pages + 1)) [];
      ret (Some tos_links)).

Definition finish (collected : option (list string)) : M unit :=
  match collected with
  | None => ret tt
  | Some tos_links => save tos_links
  end.

(** The text of a CSV file made of the given records. *)
Definition csv_text (rows : list (list string)) : string :=
  foldr (fun row s => csv_record row +:+ s) EmptyString rows.

(** A run is complete when [main] returns normally and its last log
    line announces the saved file. *)
Definition complete (o : result unit * World * Traffic) : Prop :=
  res o = Ok tt /\ last (logs (final o)) = Some (INFO, "Links saved to tos_links.csv").

(** The fetch of a page of the listing, and a fetch answered with an
    error status. *)
Definition page_fetch (x : Request * Response) : Prop :=
  exists p, x.1 = get (page_url p).

Definition failed_page_fetch (x : Request * Response) : Prop :=
  page_fetch x /\ is_error_status (status_code x.2) = true.

(** A computation is fail-fast when it leaves the files alone and a
    failed page fetch in its traffic is its outcome, as the
    [HTTPError] of that status. *)
Definition fail_fast {A} (c : M A) : Prop :=
  forall w,
    files (final (c w)) = files w /\
    forall x, x ∈ trace (c w) -> failed_page_fetch x ->
              res (c w) = Raise (HTTPError (status_code x.2)).

(** A computation is determined by the answers of the site when two
    executions that receive the same answers, as far as they go, have
    the same result and made as many requests. *)
Definition determined {A} (c : M A) : Prop :=
  forall w w' rest rest',
    (trace (c w)).*2 ++ rest = (trace (c w')).*2 ++ rest' ->
    res (c w) = res (c w') /\ (trace (c w)).*2 = (trace (c w')).*2.

(** The world after [save]. *)
Definition saved (tos_links : list string) (w : World) : World :=
  logged INFO "Links saved to tos_links.csv"
    (set_files
       (<[filename := csv_text (["ToS Links"] :: ((fun link => [link]) <$> tos_links))]>
          (files w)) w).

(** [pages_scraped pages w per_page w']: scraping [pages] one after
    the other from [w] succeeds on every page, yields the links
    [per_page] page by page, and leaves [w']. *)
Inductive pages_scraped : list Z -> World -> list (list string) -> World -> Prop :=
| scraped_nil w : pages_scraped [] w [] w
| scraped_cons p pages w links w1 t per_page w' :
    scrape_page p w = (Ok links, w1, t) ->
    pages_scraped pages w1 per_page w' ->
    pages_scraped (p :: pages) w (links :: per_page) w'.

(** *** More vocabulary for the properties of a run *)

(** The requests of a run that meets no obstacle: the login page, the
    login form with the token [tok], then the pages 1 to [total_pages]. *)
Definition full_requests (tok : string) (total_pages : Z) : list Request :=
  get LOGIN_URL :: post_login "YOUR_EMAIL" "YOUR_PASSWORD" tok
    :: ((fun page => get (page_url page)) <$> range 1 (total_pages + 1)).

(** A computation stops at a failed page fetch when such a fetch, if
    it occurs in the traffic, is the last exchange. *)
Definition stops_at_failure {A} (c : M A) : Prop :=
  forall w x, x ∈ trace (c w) -> failed_page_fetch x -> last (trace (c w)) = Some x.


(** * Properties *)

(** ** The monad *)

Ltac unfold_M :=
  unfold mbind, mret, M_bind, M_ret, bind, ret, raise in *.

Lemma bind_ok {A B} (c : M A) (k : A -> M B) w a w1 t1 :
  c w = (Ok a, w1, t1) ->
  (c ≫= k) w = (res (k a w1), final (k a w1), t1 ++ trace (k a w1)).
Proof.
  intros H. unfold_M. rewrite H. by destruct (k a w1) as [[r w2] t2].
Qed.

Lemma bind_raise {A B} (c : M A) (k : A -> M B) w e w1 t1 :
  c w = (Raise e, w1, t1) -> (c ≫= k) w = (Raise e, w1, t1).
Proof. intros H. unfold_M. by rewrite H. Qed.

(** ** Addresses *)

Lemma page_url_services p : exists s, page_url p = SERVICES_URL +:+ s.
Proof.
  unfold page_url. destruct (1 <? p).
  - by eexists.
  - by exists EmptyString.
Qed.

Lemma page_url_not_login p : page_url p <> LOGIN_URL.
Proof.
  destruct (page_url_services p) as [s ->]. cbn. discriminate.
Qed.

(** ** fetch_csrf_token and login *)

Lemma session_get_run u w resp srv :
  handle (remote w) (get u) = (resp, srv) ->
  session_get u w = (Ok resp, answered srv w, [(get u, resp)]).
Proof.
  intros H. unfold session_get, session_request. fold (get u). by rewrite H.
Qed.

Lemma fetch_csrf_token_run w resp srv :
  handle (remote w) (get LOGIN_URL) = (resp, srv) ->
  fetch_csrf_token w =
    if is_error_status (status_code resp)
    then (Raise (HTTPError (status_code resp)), answered srv w, [(get LOGIN_URL, resp)])
    else
      match find is_token_input (html_parser (text resp)) with
      | None =>
          (Ok None,
           logged ERROR "Failed to retrieve CSRF token." (answered srv w),
           [(get LOGIN_URL, resp)])
      | Some token_input =>
          match tag_getitem token_input "value" with
          | None => (Raise (KeyError "value"), answered srv w, [(get LOGIN_URL, resp)])
          | Some v => (Ok (Some v), answered srv w, [(get LOGIN_URL, resp)])
          end
      end.
Proof.
  intros H. unfold fetch_csrf_token.
  rewrite (bind_ok _ _ _ _ _ _ (session_get_run _ _ _ _ H)).
  unfold raise_for_status. unfold_M.
  destruct (is_error_status (status_code resp)); [done|].
  destruct (find is_token_input (html_parser (text resp))) as [inp|]; [|done].
  by destruct (tag_getitem inp "value").
Qed.

Lemma session_post_run email password tok w resp srv :
  handle (remote w) (post_login email password tok) = (resp, srv) ->
  session_post LOGIN_URL
    [("user[email]", email); ("user[password]", password);
     ("authenticity_token", tok)] w
  = (Ok resp, answered srv w, [(post_login email password tok, resp)]).
Proof.
  intros H. unfold session_post, session_request.
  fold (post_login email password tok). by rewrite H.
Qed.

Lemma login_run_token email password w tok w1 t1 resp srv :
  fetch_csrf_token w = (Ok (Some tok), w1, t1) ->
  tok <> EmptyString ->
  handle (remote w1) (post_login email password tok) = (resp, srv) ->
  login email password w =
    if status_code resp =? 200
    then (Ok true, answered srv w1, t1 ++ [(post_login email password tok, resp)])
    else (Ok false,
          logged ERROR
            ("Login failed with status code " +:+ pretty (status_code resp) +:+ ".")
            (answered srv w1),
          t1 ++ [(post_login email password tok, resp)]).
Proof.
  intros Hf Htok Hp. unfold login.
  rewrite (bind_ok _ _ _ _ _ _ Hf). cbn [truthy default].
  rewrite bool_decide_eq_false_2 by done. cbn [negb].
  rewrite (bind_ok _ _ _ _ _ _ (session_post_run _ _ _ _ _ _ Hp)).
  destruct (status_code resp =? 200); by unfold_M.
Qed.

Lemma login_run_no_token email password w r w1 t1 :
  fetch_csrf_token w = (r, w1, t1) ->
  truthy (match r with Ok v => v | Raise _ => None end) = false ->
  login email password w =
    (match r with Ok _ => Ok false | Raise e => Raise e end, w1, t1).
Proof.
  intros Hf Ht. unfold login. destruct r as [v|e].
  - rewrite (bind_ok _ _ _ _ _ _ Hf), Ht. unfold_M. cbn. by rewrite app_nil_r.
  - by rewrite (bind_raise _ _ _ _ _ _ Hf).
Qed.

(** ** Searching the tree *)

Lemma find_None crit n :
  find crit n = None <-> Forall (fun x => crit x = false) (descendants n).
Proof.
  unfold find, find_all. induction (descendants n) as [|x l IH]; cbn.
  - split; [constructor | done].
  - destruct (crit x) eqn:E; cbn.
    + split; [done | by inversion 1; congruence].
    + rewrite IH. split; [by constructor | by inversion 1].
Qed.

Lemma find_Some crit n x :
  find crit n = Some x -> In x (descendants n) /\ crit x = true.
Proof.
  unfold find, find_all. intros H.
  assert (In x (List.filter crit (descendants n))) as Hin.
  { destruct (List.filter crit (descendants n)); [done|].
    cbn in H. injection H as ->. by left. }
  by apply filter_In in Hin.
Qed.

(** ** The loop over the rows *)

Lemma scrape_row_pure row links w :
  scrape_row row links w = (res (scrape_row row links w), w, []).
Proof.
  unfold scrape_row.
  destruct (find is_right_cell row) as [cell|]; [|done].
  destruct (dot_a cell) as [a|]; [|done].
  by destruct (tag_getitem a "href").
Qed.

Lemma scrape_row_res row links w w' :
  res (scrape_row row links w) = res (scrape_row row links w').
Proof.
  unfold scrape_row.
  destruct (find is_right_cell row) as [cell|]; [|done].
  destruct (dot_a cell) as [a|]; [|done].
  by destruct (tag_getitem a "href").
Qed.

Lemma scrape_rows_pure rows links w :
  for_each rows scrape_row links w
  = (res (for_each rows scrape_row links w), w, []).
Proof.
  revert links. induction rows as [|row rows IH]; intros links; [done|].
  cbn [for_each]. pose proof (scrape_row_pure row links w) as Hr.
  destruct (res (scrape_row row links w)) as [links'|e].
  - rewrite (bind_ok _ _ _ _ _ _ Hr), IH. by cbn.
  - by rewrite (bind_raise _ _ _ _ _ _ Hr).
Qed.

Lemma scrape_rows_res rows links w w' :
  res (for_each rows scrape_row links w) = res (for_each rows scrape_row links w').
Proof.
  revert links. induction rows as [|row rows IH]; intros links; [done|].
  cbn [for_each].
  pose proof (scrape_row_pure row links w) as Hr.
  pose proof (scrape_row_pure row links w') as Hr'.
  rewrite (scrape_row_res row links w w') in Hr.
  destruct (res (scrape_row row links w')) as [links'|e].
  - rewrite (bind_ok _ _ _ _ _ _ Hr), (bind_ok _ _ _ _ _ _ Hr'). cbn. apply IH.
  - by rewrite (bind_raise _ _ _ _ _ _ Hr), (bind_raise _ _ _ _ _ _ Hr').
Qed.

(** ** scrape_page *)

Lemma scrape_page_run p w resp srv :
  handle (remote w) (get (page_url p)) = (resp, srv) ->
  scrape_page p w =
    if is_error_status (status_code resp)
    then (Raise (HTTPError (status_code resp)), answered srv w,
          [(get (page_url p), resp)])
    else
      match res (for_each (find_all is_sortable_row (html_parser (text resp)))
                   scrape_row [] (answered srv w)) with
      | Ok links =>
          (Ok links, rested DELAY (answered srv w), [(get (page_url p), resp)])
      | Raise e => (Raise e, answered srv w, [(get (page_url p), resp)])
      end.
Proof.
  intros H. unfold scrape_page.
  rewrite (bind_ok _ _ _ _ _ _ (session_get_run _ _ _ _ H)).
  unfold raise_for_status.
  destruct (is_error_status (status_code resp)); [by unfold_M|].
  unfold_M. cbn. rewrite scrape_rows_pure.
  by destruct (res (for_each _ scrape_row _ _)).
Qed.

Lemma scrape_row_no_cell row links w :
  find is_right_cell row = None ->
  scrape_row row links w = (Raise (AttributeError "a"), w, []).
Proof. intros H. unfold scrape_row. by rewrite H. Qed.

Lemma scrape_row_no_anchor row links w cell :
  find is_right_cell row = Some cell -> dot_a cell = None ->
  scrape_row row links w = (Ok links, w, []).
Proof. intros H1 H2. unfold scrape_row. by rewrite H1, H2. Qed.

Lemma scrape_row_link row links w :
  well_formed_row row ->
  res (scrape_row row links w)
  = Ok (links ++ match row_link row with Some l => [l] | None => [] end).
Proof.
  intros [[cell Hc] Hh]. unfold scrape_row, row_link, row_anchor in *.
  rewrite Hc in *. cbn in *.
  destruct (dot_a cell) as [a|]; cbn.
  - destruct (Hh a eq_refl) as [href ->]. done.
  - by rewrite app_nil_r.
Qed.

Lemma scrape_rows_links rows links w :
  Forall well_formed_row rows ->
  res (for_each rows scrape_row links w) = Ok (links ++ omap row_link rows).
Proof.
  intros Hwf. revert links.
  induction Hwf as [|row rows Hrow _ IH]; intros links.
  - cbn. by rewrite app_nil_r.
  - cbn [for_each]. pose proof (scrape_row_pure row links w) as Hr.
    rewrite (scrape_row_link _ _ _ Hrow) in Hr.
    rewrite (bind_ok _ _ _ _ _ _ Hr). cbn. rewrite IH, <- app_assoc.
    by destruct (row_link row).
Qed.

Lemma row_links_anchors rows :
  Forall well_formed_row rows ->
  Forall2
    (fun row link =>
       exists a href, row_anchor row = Some a /\ tag_getitem a "href" = Some href
                      /\ link = BASE_URL +:+ href)
    (filter (fun row => is_Some (row_anchor row)) rows)
    (omap row_link rows).
Proof.
  induction 1 as [|row rows [_ Hh] _ IH]; [constructor|].
  rewrite filter_cons. cbn. unfold row_link at 1.
  destruct (row_anchor row) as [a|] eqn:Ea; cbn.
  - destruct (Hh a eq_refl) as [href Hhref]. rewrite Hhref. cbn.
    rewrite decide_True by done. constructor; [|done].
    by exists a, href.
  - rewrite decide_False by (by intros [? ?]). done.
Qed.

(** ** The shape of a run of main *)

Lemma main_on_collect N : main_on N = collect N ≫= finish.
Proof. reflexivity. Qed.

Lemma collect_login_raise N w e w1 t1 :
  login "YOUR_EMAIL" "YOUR_PASSWORD" (set_session true w) = (Raise e, w1, t1) ->
  collect N w = (Raise e, set_session false w1, t1).
Proof.
  intros H. unfold collect, with_session. by rewrite (bind_raise _ _ _ _ _ _ H).
Qed.

Lemma collect_login_false N w w1 t1 :
  login "YOUR_EMAIL" "YOUR_PASSWORD" (set_session true w) = (Ok false, w1, t1) ->
  collect N w
  = (Ok None, set_session false (logged ERROR "Login failed. Exiting." w1), t1).
Proof.
  intros H. unfold collect, with_session.
  rewrite (bind_ok _ _ _ _ _ _ H). cbn. by rewrite !app_nil_r.
Qed.

Lemma collect_login_true N w w1 t1 :
  login "YOUR_EMAIL" "YOUR_PASSWORD" (set_session true w) = (Ok true, w1, t1) ->
  collect N w =
    match scrape_pages (range 1 (N + 1)) [] w1 with
    | (Ok tos_links, w2, t2) => (Ok (Some tos_links), set_session false w2, t1 ++ t2)
    | (Raise e, w2, t2) => (Raise e, set_session false w2, t1 ++ t2)
    end.
Proof.
  intros H. unfold collect, with_session.
  rewrite (bind_ok _ _ _ _ _ _ H). cbn [negb].
  destruct (scrape_pages (range 1 (N + 1)) [] w1) as [[[links|e] w2] t2] eqn:E.
  - rewrite (bind_ok _ _ _ _ _ _ E). cbn. by rewrite app_nil_r.
  - by rewrite (bind_raise _ _ _ _ _ _ E).
Qed.

(** ** Claims about the login *)

(** C1 (as the code has it): when the GET of the login page is
    answered with an error status (4xx or 5xx), [raise_for_status]
    raises [HTTPError]; [login] does not turn it into a false return
    and [main] does not catch it.  The exception leaves both, after
    that single request, and no file is touched. *)
Theorem login_get_error_raises N email password w resp srv :
  handle (remote w) (get LOGIN_URL) = (resp, srv) ->
  is_error_status (status_code resp) = true ->
  res (login email password w) = Raise (HTTPError (status_code resp)) /\
  res (main_on N w) = Raise (HTTPError (status_code resp)) /\
  trace (main_on N w) = [(get LOGIN_URL, resp)] /\
  files (final (main_on N w)) = files w.
Proof.
  intros Hget Herr. split.
  - pose proof (fetch_csrf_token_run w resp srv Hget) as Hf.
    rewrite Herr in Hf. by rewrite (login_run_no_token _ _ _ _ _ _ Hf).
  - pose proof (fetch_csrf_token_run (set_session true w) resp srv Hget) as Hf.
    rewrite Herr in Hf.
    pose proof (login_run_no_token "YOUR_EMAIL" "YOUR_PASSWORD" _ _ _ _ Hf eq_refl) as Hl.
    rewrite main_on_collect.
    by rewrite (bind_raise _ _ _ _ _ _ (collect_login_raise N _ _ _ _ Hl)).
Qed.

(** C8: once the token is in hand the login POSTs the form, and its
    result is decided by the status of the answer alone: true exactly
    for status 200; for any other status the status is logged as an
    error and the result is false.  The POST is the last request of
    the login: nothing checks the session afterwards. *)
Theorem login_post_status email password w tok w1 t1 resp srv :
  fetch_csrf_token w = (Ok (Some tok), w1, t1) ->
  tok <> EmptyString ->
  handle (remote w1) (post_login email password tok) = (resp, srv) ->
  let o := login email password w in
  res o = Ok (bool_decide (status_code resp = 200)) /\
  (res o = Ok true <-> status_code resp = 200) /\
  (status_code resp <> 200 ->
   res o = Ok false /\
   logs (final o) =
     logs w1 ++ [(ERROR, "Login failed with status code "
                           +:+ pretty (status_code resp) +:+ ".")]) /\
  trace o = t1 ++ [(post_login email password tok, resp)].
Proof.
  intros Hf Htok Hp o. subst o.
  rewrite (login_run_token _ _ _ _ _ _ _ _ Hf Htok Hp).
  destruct (Z.eqb_spec (status_code resp) 200) as [Heq|Hne].
  - rewrite bool_decide_eq_true_2 by done. cbn. tauto.
  - rewrite bool_decide_eq_false_2 by done. cbn.
    split; [done|]. split; [|done]. split; [done | by intros ?].
Qed.

(** C10: [fetch_csrf_token] returns None only when no input named
    authenticity_token occurs in the parsed login page; when the
    input that [find] returns has no value attribute, the lookup
    raises KeyError instead. *)
Theorem fetch_csrf_token_none_or_keyerror w resp srv :
  handle (remote w) (get LOGIN_URL) = (resp, srv) ->
  let soup := html_parser (text resp) in
  (res (fetch_csrf_token w) = Ok None <->
   is_error_status (status_code resp) = false /\
   Forall (fun n => is_token_input n = false) (descendants soup)) /\
  (is_error_status (status_code resp) = false ->
   forall inp, find is_token_input soup = Some inp ->
               tag_getitem inp "value" = None ->
               res (fetch_csrf_token w) = Raise (KeyError "value")).
Proof.
  intros Hget soup. rewrite (fetch_csrf_token_run w resp srv Hget).
  rewrite <- find_None. fold soup. split.
  - destruct (is_error_status (status_code resp)); cbn.
    { split; [done | by intros [? _]]. }
    destruct (find is_token_input soup) as [inp|]; [|done].
    destruct (tag_getitem inp "value"); cbn; split; try done; by intros [_ ?].
  - intros -> inp -> Hv. by rewrite Hv.
Qed.

(** ** Claims about scrape_page *)

(** C7: for a positive page number, [scrape_page] sends exactly one
    request, a GET of the listing address itself for page 1 and of
    the listing address followed by [?page=] and the decimal page
    number for a later page. *)
Theorem scrape_page_address p w :
  0 < p ->
  trace (scrape_page p w) =
    [(get (if p =? 1 then SERVICES_URL
           else SERVICES_URL +:+ "?page=" +:+ pretty p),
      (handle (remote w) (get (page_url p))).1)].
Proof.
  intros Hp.
  destruct (handle (remote w) (get (page_url p))) as [resp srv] eqn:Hget.
  rewrite (scrape_page_run p w resp srv Hget). cbn [fst].
  assert (page_url p = if p =? 1 then SERVICES_URL
                       else SERVICES_URL +:+ "?page=" +:+ pretty p) as <-.
  { unfold page_url. destruct (Z.eqb_spec p 1) as [->|Hne]; [done|].
    by rewrite (proj2 (Z.ltb_lt 1 p)) by lia. }
  destruct (is_error_status (status_code resp)); [done|].
  by destruct (res (for_each _ scrape_row _ _)).
Qed.

(** C6 (as the code has it): when the page is fetched without an
    error status, each of its K sortable rows has a right-aligned
    cell and each anchor found there has an href, [scrape_page]
    returns, for the M rows with such an anchor and in the order of
    the rows, the base address followed by the href: M links. *)
Theorem scrape_page_links p w resp srv :
  handle (remote w) (get (page_url p)) = (resp, srv) ->
  is_error_status (status_code resp) = false ->
  let rows := find_all is_sortable_row (html_parser (text resp)) in
  let anchored := filter (fun row => is_Some (row_anchor row)) rows in
  Forall well_formed_row rows ->
  exists links,
    res (scrape_page p w) = Ok links /\
    length links = length anchored /\
    Forall2
      (fun row link =>
         exists a href, row_anchor row = Some a /\
                        tag_getitem a "href" = Some href /\
                        link = BASE_URL +:+ href)
      anchored links.
Proof.
  intros Hget Hok rows anchored Hwf.
  exists (omap row_link rows).
  rewrite (scrape_page_run p w resp srv Hget), Hok.
  fold rows. rewrite (scrape_rows_links rows [] _ Hwf). cbn.
  pose proof (row_links_anchors rows Hwf) as HF.
  split; [done|]. split; [|done].
  symmetry. by eapply Forall2_length.
Qed.

(** ** Writing the file *)

Lemma string_app_nil_r (s : string) : s +:+ EmptyString = s.
Proof.
  induction s as [|c s IH]; [done|].
  change (String c (s +:+ EmptyString) = String c s). by rewrite IH.
Qed.

Lemma string_app_assoc (s1 s2 s3 : string) :
  (s1 +:+ s2) +:+ s3 = s1 +:+ (s2 +:+ s3).
Proof.
  induction s1 as [|c s1 IH]; [done|].
  change (String c ((s1 +:+ s2) +:+ s3) = String c (s1 +:+ (s2 +:+ s3))).
  by rewrite IH.
Qed.

Lemma write_rows_run tos_links w content :
  files w !! filename = Some content ->
  for_each tos_links (fun link _ => writerow filename [link]) tt w
  = (Ok tt,
     set_files
       (<[filename := content +:+ csv_text ((fun link => [link]) <$> tos_links)]>
          (files w)) w,
     []).
Proof.
  revert w content. induction tos_links as [|link links IH]; intros w content Hc.
  - cbn. rewrite string_app_nil_r, insert_id by done. by destruct w.
  - cbn [for_each].
    erewrite bind_ok by reflexivity.
    erewrite IH.
    2:{ cbn. rewrite (alter_alt_Some _ _ _ _ Hc). apply lookup_insert_eq. }
    cbn. unfold set_files. cbn.
    rewrite (alter_alt_Some _ _ _ _ Hc), insert_insert_eq, string_app_assoc.
    done.
Qed.

Lemma save_run tos_links w : save tos_links w = (Ok tt, saved tos_links w, []).
Proof.
  unfold save.
  erewrite bind_ok by reflexivity.
  erewrite bind_ok by reflexivity.
  erewrite bind_ok.
  2:{ apply write_rows_run with (content := csv_record ["ToS Links"]).
      cbn. rewrite alter_insert_eq. apply lookup_insert_eq. }
  cbn. unfold saved, logged, set_files. cbn.
  by rewrite alter_insert_eq, !insert_insert_eq.
Qed.

Lemma main_on_run N w :
  main_on N w =
    match collect N w with
    | (Ok (Some tos_links), w1, t) => (Ok tt, saved tos_links w1, t)
    | (Ok None, w1, t) => (Ok tt, w1, t)
    | (Raise e, w1, t) => (Raise e, w1, t)
    end.
Proof.
  rewrite main_on_collect.
  destruct (collect N w) as [[[[links|]|e] w1] t] eqn:E.
  - rewrite (bind_ok _ _ _ _ _ _ E). cbn [finish].
    rewrite save_run. cbn. by rewrite app_nil_r.
  - rewrite (bind_ok _ _ _ _ _ _ E). cbn. by rewrite app_nil_r.
  - by rewrite (bind_raise _ _ _ _ _ _ E).
Qed.

(** ** What the login leaves alone *)

Lemma fetch_csrf_token_frame w :
  files (final (fetch_csrf_token w)) = files w /\
  trace (fetch_csrf_token w)
  = [(get LOGIN_URL, (handle (remote w) (get LOGIN_URL)).1)].
Proof.
  destruct (handle (remote w) (get LOGIN_URL)) as [resp srv] eqn:Hget.
  rewrite (fetch_csrf_token_run w resp srv Hget).
  destruct (is_error_status (status_code resp)); [done|].
  destruct (find is_token_input (html_parser (text resp))) as [inp|]; [|done].
  by destruct (tag_getitem inp "value").
Qed.

Lemma login_frame email password w :
  files (final (login email password w)) = files w /\
  forall x, x ∈ trace (login email password w) -> url x.1 = LOGIN_URL.
Proof.
  destruct (fetch_csrf_token_frame w) as [Hfiles Htrace].
  destruct (fetch_csrf_token w) as [[r w1] t1] eqn:Hf. cbn in Hfiles, Htrace.
  destruct (truthy (match r with Ok v => v | Raise _ => None end)) eqn:Ht.
  - destruct r as [[tok|]|e]; try done.
    assert (tok <> EmptyString) as Htok.
    { intros ->. done. }
    destruct (handle (remote w1) (post_login email password tok)) as [resp srv] eqn:Hp.
    rewrite (login_run_token _ _ _ _ _ _ _ _ Hf Htok Hp). subst t1.
    destruct (status_code resp =? 200); cbn; (split; [done|]);
      intros x [->| ->%list_elem_of_singleton]%elem_of_cons; done.
  - rewrite (login_run_no_token _ _ _ _ _ _ Hf Ht). cbn. split; [done|].
    subst t1. by intros x ->%list_elem_of_singleton.
Qed.

Lemma login_url_not_page x : url x.1 = LOGIN_URL -> ~ page_fetch x.
Proof.
  intros Hu [p Hp]. rewrite Hp in Hu. cbn in Hu. by apply page_url_not_login in Hu.
Qed.

(** ** Fail-fast computations *)

Lemma fail_fast_ret {A} (a : A) : fail_fast (mret a).
Proof. intros w. split; [done|]. by intros x ?%elem_of_nil. Qed.

Lemma fail_fast_logging lvl msg : fail_fast (logging lvl msg).
Proof. intros w. split; [done|]. by intros x ?%elem_of_nil. Qed.

Lemma fail_fast_bind {A B} (c : M A) (k : A -> M B) :
  fail_fast c -> (forall a, fail_fast (k a)) -> fail_fast (c ≫= k).
Proof.
  intros Hc Hk w. destruct (Hc w) as [Hfc Htc].
  destruct (c w) as [[[a|e] w1] t1] eqn:E.
  - rewrite (bind_ok _ _ _ _ _ _ E). destruct (Hk a w1) as [Hfk Htk].
    cbn in *. split; [congruence|].
    intros x [Hx|Hx]%elem_of_app Hbad; [|by apply Htk].
    by specialize (Htc x Hx Hbad).
  - rewrite (bind_raise _ _ _ _ _ _ E). split; [exact Hfc|].
    intros x Hx Hbad. specialize (Htc x Hx Hbad). cbn in *. congruence.
Qed.

Lemma fail_fast_for_each {A S} (xs : list A) (body : A -> S -> M S) s :
  (forall x s, fail_fast (body x s)) -> fail_fast (for_each xs body s).
Proof.
  intros Hb. revert s. induction xs as [|x xs IH]; intros s; cbn [for_each].
  - apply fail_fast_ret.
  - apply fail_fast_bind; [apply Hb | apply IH].
Qed.

Lemma fail_fast_with_session {A} (c : M A) : fail_fast c -> fail_fast (with_session c).
Proof.
  intros Hc w. unfold with_session. destruct (Hc (set_session true w)) as [Hf Ht].
  by destruct (c (set_session true w)) as [[r w1] t1].
Qed.

Lemma fail_fast_login email password : fail_fast (login email password).
Proof.
  intros w. destruct (login_frame email password w) as [Hf Hu]. split; [done|].
  intros x Hx [Hp _]. by destruct (login_url_not_page x (Hu x Hx)).
Qed.

Lemma fail_fast_scrape_page p : fail_fast (scrape_page p).
Proof.
  intros w. destruct (handle (remote w) (get (page_url p))) as [resp srv] eqn:Hget.
  rewrite (scrape_page_run p w resp srv Hget).
  destruct (is_error_status (status_code resp)) eqn:Herr.
  - split; [done|]. by intros x ->%list_elem_of_singleton _.
  - destruct (res (for_each _ scrape_row _ _)); (split; [done|]);
      intros x ->%list_elem_of_singleton [_ Hbad]; cbn in Hbad; congruence.
Qed.

Lemma fail_fast_scrape_pages pages tos_links : fail_fast (scrape_pages pages tos_links).
Proof.
  apply fail_fast_for_each. intros p s.
  apply fail_fast_bind; [apply fail_fast_scrape_page | intros; apply fail_fast_ret].
Qed.

Lemma fail_fast_collect N : fail_fast (collect N).
Proof.
  apply fail_fast_with_session, fail_fast_bind; [apply fail_fast_login|].
  intros [|]; cbn [negb].
  - apply fail_fast_bind; [apply fail_fast_scrape_pages | intros; apply fail_fast_ret].
  - apply fail_fast_bind; [apply fail_fast_logging | intros; apply fail_fast_ret].
Qed.

(** ** Claims about the run *)

(** C5: when the login returns false, [main] logs the failure and
    returns at once: its traffic is that of the login, no page of the
    listing is fetched, and the files are as they were. *)
Theorem main_login_failure N w :
  res (login "YOUR_EMAIL" "YOUR_PASSWORD" (set_session true w)) = Ok false ->
  let o := main_on N w in
  res o = Ok tt /\
  trace o = trace (login "YOUR_EMAIL" "YOUR_PASSWORD" (set_session true w)) /\
  (forall x, x ∈ trace o -> ~ page_fetch x) /\
  files (final o) = files w /\
  last (logs (final o)) = Some (ERROR, "Login failed. Exiting.").
Proof.
  intros Hl o. subst o.
  destruct (login_frame "YOUR_EMAIL" "YOUR_PASSWORD" (set_session true w))
    as [Hfiles Hurl].
  destruct (login "YOUR_EMAIL" "YOUR_PASSWORD" (set_session true w))
    as [[r w1] t1] eqn:E.
  cbn in Hl, Hfiles, Hurl. subst r.
  rewrite main_on_run, (collect_login_false N _ _ _ E). cbn.
  split; [done|]. split; [done|].
  split; [intros x Hx; by apply login_url_not_page, Hurl|].
  split; [done|]. apply last_snoc.
Qed.

(** C4 (as the code has it): when some fetch of a page of the listing
    is answered with an error status, 4xx or 5xx, the run ends with
    the [HTTPError] of that fetch, uncaught, and the files are as they
    were before the run: nothing is written.  Another status outside
    the 2xx range does not stop the run. *)
Theorem page_fetch_error_aborts N w x :
  x ∈ trace (main_on N w) ->
  failed_page_fetch x ->
  res (main_on N w) = Raise (HTTPError (status_code x.2)) /\
  files (final (main_on N w)) = files w.
Proof.
  rewrite main_on_run. destruct (fail_fast_collect N w) as [Hfiles Hfail].
  destruct (collect N w) as [[[[links|]|e] w1] t]; cbn in *; intros Hx Hbad;
    specialize (Hfail x Hx Hbad); try done.
  by injection Hfail as ->.
Qed.

Lemma scrape_pages_ok pages tos_links w links w' t :
  scrape_pages pages tos_links w = (Ok links, w', t) ->
  exists per_page,
    pages_scraped pages w per_page w' /\ links = tos_links ++ concat per_page.
Proof.
  revert tos_links w t. induction pages as [|p pages IH]; intros acc w t H.
  - injection H as <- <- <-. exists []. split; [constructor | by rewrite app_nil_r].
  - unfold scrape_pages in H. cbn [for_each] in H.
    fold (scrape_pages pages) in H.
    destruct (scrape_page p w) as [[[l|e] w1] t1] eqn:Ep.
    + erewrite bind_ok in H.
      2:{ rewrite (bind_ok _ _ _ _ _ _ Ep). cbn. reflexivity. }
      destruct (scrape_pages pages (acc ++ l) w1) as [[r w2] t2] eqn:Er.
      cbn in H. injection H as -> <- <-.
      destruct (IH _ _ _ Er) as (per_page & Hps & ->).
      exists (l :: per_page). split; [by econstructor|].
      cbn. by rewrite app_assoc.
    + erewrite bind_raise in H; [done|].
      by rewrite (bind_raise _ _ _ _ _ _ Ep).
Qed.

Lemma pages_scraped_length pages w per_page w' :
  pages_scraped pages w per_page w' -> length per_page = length pages.
Proof. induction 1; cbn; congruence. Qed.

(** C3: in a complete run over pages 1..N the login succeeded, every
    page was scraped in turn, and the file holds the header followed
    by one record per link: the links of page 1 in row order, then
    those of page 2, and so on, each once.  The number of link records
    is the sum over the pages of the number of links of the page. *)
Theorem complete_run_rows N w :
  complete (main_on N w) ->
  exists w1 t1 per_page w2,
    login "YOUR_EMAIL" "YOUR_PASSWORD" (set_session true w) = (Ok true, w1, t1) /\
    pages_scraped (range 1 (N + 1)) w1 per_page w2 /\
    length per_page = Z.to_nat N /\
    files (final (main_on N w)) !! filename
    = Some (csv_text (["ToS Links"] :: ((fun link => [link]) <$> concat per_page))) /\
    length ((fun link => [link]) <$> concat per_page)
    = list_sum (map length per_page).
Proof.
  intros [Hres Hlog]. rewrite main_on_run in Hres, Hlog |- *.
  destruct (login "YOUR_EMAIL" "YOUR_PASSWORD" (set_session true w))
    as [[[[|]|e] w1] t1] eqn:El.
  - rewrite (collect_login_true N _ _ _ El) in Hres, Hlog |- *.
    destruct (scrape_pages (range 1 (N + 1)) [] w1) as [[[links|e] w2] t2] eqn:Es;
      [|done].
    destruct (scrape_pages_ok _ _ _ _ _ _ Es) as (per_page & Hps & ->).
    exists w1, t1, per_page, w2. split; [done|]. split; [done|].
    split.
    { rewrite (pages_scraped_length _ _ _ _ Hps). unfold range.
      rewrite length_seqZ. f_equal. lia. }
    split.
    { cbn. apply lookup_insert_eq. }
    by rewrite length_fmap, length_concat.
  - rewrite (collect_login_false N _ _ _ El) in Hlog. cbn in Hlog.
    by rewrite last_snoc in Hlog.
  - by rewrite (collect_login_raise N _ _ _ _ El) in Hres.
Qed.

(** ** Computations determined by the answers of the site *)

Lemma determined_pure {A} (c : M A) :
  (forall w, trace (c w) = []) -> (forall w w', res (c w) = res (c w')) ->
  determined c.
Proof. intros Ht Hr w w' rest rest' _. by rewrite !Ht, (Hr w w'). Qed.

Lemma determined_ret {A} (a : A) : determined (mret a).
Proof. by apply determined_pure. Qed.

Lemma determined_raise {A} e : determined (raise (A := A) e).
Proof. by apply determined_pure. Qed.

Lemma determined_logging lvl msg : determined (logging lvl msg).
Proof. by apply determined_pure. Qed.

Lemma determined_time_sleep secs : determined (time_sleep secs).
Proof. by apply determined_pure. Qed.

Lemma determined_session_request req : determined (session_request req).
Proof.
  intros w w' rest rest'. unfold session_request.
  destruct (handle (remote w) req) as [resp srv].
  destruct (handle (remote w') req) as [resp' srv']. cbn.
  intros [= ->]. done.
Qed.

Lemma determined_bind {A B} (c : M A) (k : A -> M B) :
  determined c -> (forall a, determined (k a)) -> determined (c ≫= k).
Proof.
  intros Hc Hk w w' rest rest' H. specialize (Hc w w').
  destruct (c w) as [[[a|e] w1] t1] eqn:E;
    destruct (c w') as [[[a'|e'] w1'] t1'] eqn:E';
    rewrite ?(bind_ok _ _ _ _ _ _ E), ?(bind_raise _ _ _ _ _ _ E),
      ?(bind_ok _ _ _ _ _ _ E'), ?(bind_raise _ _ _ _ _ _ E') in H |- *;
    cbn in H, Hc |- *; rewrite ?fmap_app, <- ?app_assoc in H;
    destruct (Hc _ _ H) as [Hr Ht]; try done.
  - injection Hr as <-. rewrite Ht in H. apply app_inv_head in H.
    destruct (Hk a w1 w1' _ _ H) as [Hr' Ht']. by rewrite !fmap_app, Ht, Ht'.
  - injection Hr as <-. done.
Qed.

Lemma determined_for_each {A S} (xs : list A) (body : A -> S -> M S) s :
  (forall x s, determined (body x s)) -> determined (for_each xs body s).
Proof.
  intros Hb. revert s. induction xs as [|x xs IH]; intros s; cbn [for_each].
  - apply determined_ret.
  - apply determined_bind; [apply Hb | apply IH].
Qed.

Lemma determined_with_session {A} (c : M A) :
  determined c -> determined (with_session c).
Proof.
  intros Hc w w' rest rest'. unfold with_session.
  specialize (Hc (set_session true w) (set_session true w') rest rest').
  destruct (c (set_session true w)) as [[r w1] t1].
  by destruct (c (set_session true w')) as [[r' w1'] t1'].
Qed.

Create HintDb determined.
#[local] Hint Resolve determined_ret determined_raise determined_logging
  determined_time_sleep determined_session_request determined_bind
  determined_for_each determined_with_session : determined.

Lemma determined_raise_for_status resp : determined (raise_for_status resp).
Proof.
  unfold raise_for_status.
  destruct (is_error_status (status_code resp)); auto with determined.
Qed.
#[local] Hint Resolve determined_raise_for_status : determined.

Lemma determined_fetch_csrf_token : determined fetch_csrf_token.
Proof.
  apply determined_bind; [apply determined_session_request|]. intros resp.
  apply determined_bind; [apply determined_raise_for_status|]. intros _.
  cbv zeta.
  destruct (find is_token_input (html_parser (text resp))) as [inp|].
  - destruct (tag_getitem inp "value"); auto with determined.
  - auto with determined.
Qed.
#[local] Hint Resolve determined_fetch_csrf_token : determined.

Lemma determined_login email password : determined (login email password).
Proof.
  apply determined_bind; [apply determined_fetch_csrf_token|]. intros tok.
  destruct (negb (truthy tok)); [apply determined_ret|]. cbv zeta.
  apply determined_bind; [apply determined_session_request|]. intros resp.
  destruct (negb (status_code resp =? 200)); auto with determined.
Qed.

Lemma determined_scrape_page p : determined (scrape_page p).
Proof.
  apply determined_bind; [apply determined_session_request|]. intros resp.
  apply determined_bind; [apply determined_raise_for_status|]. intros _.
  cbv zeta. apply determined_bind.
  - apply determined_pure.
    + intros w. by rewrite scrape_rows_pure.
    + apply scrape_rows_res.
  - auto with determined.
Qed.

Lemma determined_scrape_pages pages tos_links :
  determined (scrape_pages pages tos_links).
Proof.
  apply determined_for_each. intros p s.
  apply determined_bind; [apply determined_scrape_page | auto with determined].
Qed.

Lemma determined_collect N : determined (collect N).
Proof.
  apply determined_with_session, determined_bind; [apply determined_login|].
  intros [|]; cbn [negb]; auto using determined_scrape_pages with determined.
Qed.

Lemma collect_none_log N w :
  res (collect N w) = Ok None ->
  last (logs (final (collect N w))) = Some (ERROR, "Login failed. Exiting.").
Proof.
  destruct (login "YOUR_EMAIL" "YOUR_PASSWORD" (set_session true w))
    as [[[[|]|e] w1] t1] eqn:El.
  - rewrite (collect_login_true N _ _ _ El).
    by destruct (scrape_pages (range 1 (N + 1)) [] w1) as [[[links|e] w2] t2].
  - rewrite (collect_login_false N _ _ _ El). intros _. apply last_snoc.
  - by rewrite (collect_login_raise N _ _ _ _ El).
Qed.

Lemma main_on_trace N w : trace (main_on N w) = trace (collect N w).
Proof.
  rewrite main_on_run. by destruct (collect N w) as [[[[links|]|e] w1] t].
Qed.

(** C9: take a complete run, and a second run, from any files and
    any state of the site, that receives the same answers to its
    requests.  The second run is complete as well and leaves an
    output file with the same text: the file is written afresh from
    the collected links, whatever it held before. *)
Theorem identical_answers_identical_file N w w' :
  complete (main_on N w) ->
  (trace (main_on N w')).*2 = (trace (main_on N w)).*2 ->
  complete (main_on N w') /\
  files (final (main_on N w')) !! filename
  = files (final (main_on N w)) !! filename.
Proof.
  intros [Hres Hlog] Htr. rewrite !main_on_trace in Htr.
  destruct (determined_collect N w w' [] []) as [Hsame _].
  { by rewrite !app_nil_r. }
  pose proof (collect_none_log N w) as Hnone.
  unfold complete. rewrite main_on_run in Hres, Hlog |- *. rewrite main_on_run.
  destruct (collect N w) as [[[[links|]|e] w1] t]; cbn in *; [| |done].
  - destruct (collect N w') as [[[[links'|]|e'] w1'] t']; cbn in *; try done.
    injection Hsame as <-. split; [split; [done | apply last_snoc]|].
    by rewrite !lookup_insert_eq.
  - rewrite Hnone in Hlog by done. done.
Qed.

(** * Further properties of the script *)

(** ** The token and the login, case by case *)

Lemma find_first crit n pre x post :
  descendants n = pre ++ x :: post ->
  Forall (fun y => crit y = false) pre ->
  crit x = true ->
  find crit n = Some x.
Proof.
  intros Hd Hpre Hx. unfold find, find_all. rewrite Hd, List.filter_app.
  assert (List.filter crit pre = []) as ->.
  { clear Hd. induction Hpre as [|y pre Hy _ IH]; [done|]. cbn. by rewrite Hy. }
  cbn. by rewrite Hx.
Qed.

(** X1: with several inputs named authenticity_token on the login
    page, the token is the value of the first one in document order;
    the fetch is a single GET and logs nothing. *)
Theorem fetch_csrf_token_first_match w resp srv pre inp post v :
  handle (remote w) (get LOGIN_URL) = (resp, srv) ->
  is_error_status (status_code resp) = false ->
  descendants (html_parser (text resp)) = pre ++ inp :: post ->
  Forall (fun n => is_token_input n = false) pre ->
  is_token_input inp = true ->
  tag_getitem inp "value" = Some v ->
  fetch_csrf_token w = (Ok (Some v), answered srv w, [(get LOGIN_URL, resp)]).
Proof.
  intros Hget Hok Hd Hpre Hinp Hv.
  rewrite (fetch_csrf_token_run w resp srv Hget), Hok.
  by rewrite (find_first _ _ _ _ _ Hd Hpre Hinp), Hv.
Qed.

(** X2: on a login page without the token field the login gives up
    after its GET: it returns false, sends no POST, and its only log
    line is the error about the token. *)
Theorem login_without_token_field email password w resp srv :
  handle (remote w) (get LOGIN_URL) = (resp, srv) ->
  is_error_status (status_code resp) = false ->
  find is_token_input (html_parser (text resp)) = None ->
  login email password w =
    (Ok false,
     logged ERROR "Failed to retrieve CSRF token." (answered srv w),
     [(get LOGIN_URL, resp)]).
Proof.
  intros Hget Hok Hnone.
  pose proof (fetch_csrf_token_run w resp srv Hget) as Hf.
  rewrite Hok, Hnone in Hf.
  by rewrite (login_run_no_token _ _ _ _ _ _ Hf).
Qed.

(** X3: a token field whose value is the empty string counts as no
    token: the login returns false after its GET, sends no POST, and
    logs nothing at all. *)
Theorem login_empty_token_silent email password w resp srv inp :
  handle (remote w) (get LOGIN_URL) = (resp, srv) ->
  is_error_status (status_code resp) = false ->
  find is_token_input (html_parser (text resp)) = Some inp ->
  tag_getitem inp "value" = Some EmptyString ->
  login email password w = (Ok false, answered srv w, [(get LOGIN_URL, resp)]).
Proof.
  intros Hget Hok Hinp Hv.
  pose proof (fetch_csrf_token_run w resp srv Hget) as Hf.
  rewrite Hok, Hinp, Hv in Hf.
  by rewrite (login_run_no_token _ _ _ _ _ _ Hf).
Qed.

Lemma login_cases email password w :
  let o := login email password w in
  files (final o) = files w /\ slept (final o) = slept w /\
  session_open (final o) = session_open w /\
  exists r1 tok,
    (trace o = [(get LOGIN_URL, r1)] /\ res o <> Ok true) \/
    (exists r2, trace o = [(get LOGIN_URL, r1); (post_login email password tok, r2)] /\
                tok <> EmptyString /\
                res o = Ok (status_code r2 =? 200) /\
                logs (final o) =
                  if status_code r2 =? 200 then logs w
                  else logs w ++ [(ERROR, "Login failed with status code "
                                            +:+ pretty (status_code r2) +:+ ".")]).
Proof.
  intros o. subst o.
  destruct (handle (remote w) (get LOGIN_URL)) as [r1 s1] eqn:Hget.
  pose proof (fetch_csrf_token_run w r1 s1 Hget) as Hf.
  assert (forall r w1, fetch_csrf_token w = (r, w1, [(get LOGIN_URL, r1)]) ->
            truthy (match r with Ok v => v | Raise _ => None end) = false ->
            files w1 = files w -> slept w1 = slept w ->
            session_open w1 = session_open w ->
            files (final (login email password w)) = files w /\
            slept (final (login email password w)) = slept w /\
            session_open (final (login email password w)) = session_open w /\
            exists r1 tok,
              (trace (login email password w) = [(get LOGIN_URL, r1)] /\
               res (login email password w) <> Ok true) \/
              (exists r2,
                 trace (login email password w)
                 = [(get LOGIN_URL, r1); (post_login email password tok, r2)] /\
                 tok <> EmptyString /\
                 res (login email password w) = Ok (status_code r2 =? 200) /\
                 logs (final (login email password w)) =
                   if status_code r2 =? 200 then logs w
                   else logs w ++ [(ERROR, "Login failed with status code "
                                             +:+ pretty (status_code r2) +:+ ".")]))
    as Hshort.
  { intros r w1 Hr Ht H1 H2 H3. rewrite (login_run_no_token _ _ _ _ _ _ Hr Ht). cbn.
    repeat (split; [done|]). exists r1, EmptyString. left. split; [done|].
    by destruct r. }
  destruct (is_error_status (status_code r1)); [by eapply Hshort|].
  destruct (find is_token_input (html_parser (text r1))) as [inp|];
    [|by eapply Hshort].
  destruct (tag_getitem inp "value") as [tok|]; [|by eapply Hshort].
  destruct (decide (tok = EmptyString)) as [->|Htok]; [by eapply Hshort|].
  destruct (handle s1 (post_login email password tok)) as [r2 s2] eqn:Hp.
  rewrite (login_run_token _ _ _ _ _ _ r2 s2 Hf Htok Hp).
  destruct (status_code r2 =? 200) eqn:E; cbn; repeat (split; [done|]);
    exists r1, tok; right; exists r2; rewrite E; done.
Qed.

(** X4: whatever the site answers, the login makes one or two calls
    on the session, each with the login address, and touches neither
    the files nor the clock. *)
Theorem login_stays_on_login_page email password w :
  let o := login email password w in
  (1 <= length (trace o) <= 2)%nat /\
  (forall x, x ∈ trace o -> url x.1 = LOGIN_URL) /\
  files (final o) = files w /\
  slept (final o) = slept w.
Proof.
  intros o. destruct (login_cases email password w) as (Hf & Hs & _ & r1 & tok & H).
  fold o in Hf, Hs, H.
  destruct H as [[Ht _]|(r2 & Ht & _)]; rewrite Ht; cbn.
  - split; [lia|]. split; [|done]. by intros x ->%list_elem_of_singleton.
  - split; [lia|]. split; [|done].
    by intros x [->| ->%list_elem_of_singleton]%elem_of_cons.
Qed.

(** ** Addresses of the pages *)

(** X5: two page numbers get the same address exactly when they are
    equal or both at most 1: every page from 1 on has an address of
    its own, and a number below 1 silently means the first page. *)
Theorem page_url_same p q :
  page_url p = page_url q <-> p = q \/ (p <= 1 /\ q <= 1).
Proof.
  unfold page_url.
  destruct (Z.ltb_spec 1 p) as [Hp|Hp], (Z.ltb_spec 1 q) as [Hq|Hq].
  - split; [|intros [->|?]; [done|lia]].
    intros H. left.
    apply (inj (String.append SERVICES_URL)) in H.
    apply (inj (String.append "?page=")) in H.
    by apply (inj pretty) in H.
  - split; [|intros [->|?]; lia].
    intros H. change SERVICES_URL with (SERVICES_URL +:+ EmptyString) in H at 2.
    apply (inj (String.append SERVICES_URL)) in H. discriminate.
  - split; [|intros [->|?]; lia].
    intros H. change SERVICES_URL with (SERVICES_URL +:+ EmptyString) in H at 1.
    apply (inj (String.append SERVICES_URL)) in H. discriminate.
  - split; [by right | done].
Qed.


(** ** One page, whatever its rows *)

Lemma scrape_rows_app good rows links w :
  Forall well_formed_row good ->
  res (for_each (good ++ rows) scrape_row links w)
  = res (for_each rows scrape_row (links ++ omap row_link good) w).
Proof.
  intros Hgood. revert links.
  induction Hgood as [|row good Hrow _ IH]; intros links.
  - cbn. by rewrite app_nil_r.
  - cbn [app for_each]. pose proof (scrape_row_pure row links w) as Hr.
    rewrite (scrape_row_link _ _ _ Hrow) in Hr.
    rewrite (bind_ok _ _ _ _ _ _ Hr). cbn [res fst]. rewrite IH, <- app_assoc.
    cbn [omap list_omap]. by destruct (row_link row).
Qed.

Lemma scrape_row_ok_well_formed row links w links' :
  res (scrape_row row links w) = Ok links' -> well_formed_row row.
Proof.
  unfold scrape_row, well_formed_row, row_anchor.
  destruct (find is_right_cell row) as [cell|]; [|done]. cbn.
  destruct (dot_a cell) as [a|]; [|by split; [eexists|]].
  destruct (tag_getitem a "href") as [href|] eqn:Eh; [|done].
  intros _. split; [by eexists|]. intros a' [= <-]. by eexists.
Qed.

Lemma scrape_rows_ok_well_formed rows links w links' :
  res (for_each rows scrape_row links w) = Ok links' ->
  Forall well_formed_row rows.
Proof.
  revert links. induction rows as [|row rows IH]; intros links H; [constructor|].
  cbn [for_each] in H. pose proof (scrape_row_pure row links w) as Hr.
  destruct (res (scrape_row row links w)) as [l|e] eqn:E.
  - rewrite (bind_ok _ _ _ _ _ _ Hr) in H. cbn in H.
    constructor; [by eapply scrape_row_ok_well_formed | by eapply IH].
  - by rewrite (bind_raise _ _ _ _ _ _ Hr) in H.
Qed.

(** X6: [scrape_page] returns a list exactly when the page is fetched
    without an error status and every sortable row has a
    right-aligned cell whose anchor, if any, has an href; the list
    then holds the link of each row that has one, in row order. *)
Theorem scrape_page_ok_iff p w resp srv links :
  handle (remote w) (get (page_url p)) = (resp, srv) ->
  let rows := find_all is_sortable_row (html_parser (text resp)) in
  res (scrape_page p w) = Ok links <->
  is_error_status (status_code resp) = false /\
  Forall well_formed_row rows /\
  links = omap row_link rows.
Proof.
  intros Hget rows. rewrite (scrape_page_run p w resp srv Hget). fold rows.
  destruct (is_error_status (status_code resp)); [by split; [|intros [? _]]|].
  destruct (res (for_each rows scrape_row [] (answered srv w))) as [l|e] eqn:E; cbn.
  - pose proof (scrape_rows_ok_well_formed _ _ _ _ E) as Hwf.
    rewrite (scrape_rows_links rows [] _ Hwf) in E. injection E as <-. cbn.
    split; [by intros [= <-] | by intros (_ & _ & ->)].
  - split; [done|]. intros (_ & Hwf & _).
    by rewrite (scrape_rows_links rows [] _ Hwf) in E.
Qed.

(** X7: the first sortable row that is not as expected decides the
    exception of the page, and the links of the rows before it are
    lost: AttributeError when the row has no right-aligned cell,
    KeyError when its anchor has no href.  The page then ends without
    its pause. *)
Theorem scrape_page_first_bad_row p w resp srv good bad rest :
  handle (remote w) (get (page_url p)) = (resp, srv) ->
  is_error_status (status_code resp) = false ->
  find_all is_sortable_row (html_parser (text resp)) = good ++ bad :: rest ->
  Forall well_formed_row good ->
  ~ well_formed_row bad ->
  res (scrape_page p w)
  = Raise (match find is_right_cell bad with
           | None => AttributeError "a"
           | Some _ => KeyError "href"
           end) /\
  slept (final (scrape_page p w)) = slept w.
Proof.
  intros Hget Hok Hrows Hgood Hbad.
  rewrite (scrape_page_run p w resp srv Hget), Hok, Hrows.
  rewrite (scrape_rows_app good (bad :: rest) [] _ Hgood). cbn [for_each app].
  set (links := omap row_link good).
  pose proof (scrape_row_pure bad links (answered srv w)) as Hr.
  assert (res (scrape_row bad links (answered srv w))
          = Raise (match find is_right_cell bad with
                   | None => AttributeError "a"
                   | Some _ => KeyError "href"
                   end)) as Hraise.
  { unfold scrape_row. unfold well_formed_row, row_anchor in Hbad.
    destruct (find is_right_cell bad) as [cell|]; [|done]. cbn in Hbad.
    destruct (dot_a cell) as [a|].
    - destruct (tag_getitem a "href") as [href|] eqn:Eh; [|done].
      destruct Hbad. split; [by eexists|]. intros a' [= <-]. by eexists.
    - destruct Hbad. by split; [eexists|]. }
  rewrite Hraise in Hr. by rewrite (bind_raise _ _ _ _ _ _ Hr).
Qed.

(** X8: a page whose sortable rows all have a right-aligned cell
    without an anchor, a page without sortable rows among them, gives
    the empty list, and the pause is still taken. *)
Theorem scrape_page_no_anchor p w resp srv :
  handle (remote w) (get (page_url p)) = (resp, srv) ->
  is_error_status (status_code resp) = false ->
  Forall (fun row => is_Some (find is_right_cell row) /\ row_anchor row = None)
    (find_all is_sortable_row (html_parser (text resp))) ->
  scrape_page p w
  = (Ok [], rested DELAY (answered srv w), [(get (page_url p), resp)]).
Proof.
  intros Hget Hok Hrows.
  rewrite (scrape_page_run p w resp srv Hget), Hok.
  set (rows := find_all is_sortable_row (html_parser (text resp))) in *.
  assert (Forall well_formed_row rows) as Hwf.
  { eapply Forall_impl; [exact Hrows|]. intros row [Hc Ha]. split; [done|].
    intros a. by rewrite Ha. }
  rewrite (scrape_rows_links rows [] _ Hwf).
  assert (omap row_link rows = []) as ->; [|done].
  clear Hwf. induction Hrows as [|row rows [_ Ha] _ IH]; [done|].
  cbn. unfold row_link at 1. rewrite Ha. cbn. exact IH.
Qed.

(** X9: [scrape_page] pauses for [DELAY] seconds exactly when it
    returns a list, never when it raises; it makes one call on the
    session, logs nothing and leaves the files alone. *)
Theorem scrape_page_pause p w :
  let o := scrape_page p w in
  slept (final o) = (if res o is Ok _ then slept w + DELAY else slept w) /\
  length (trace o) = 1%nat /\
  logs (final o) = logs w /\
  files (final o) = files w.
Proof.
  intros o. subst o.
  destruct (handle (remote w) (get (page_url p))) as [resp srv] eqn:Hget.
  rewrite (scrape_page_run p w resp srv Hget).
  destruct (is_error_status (status_code resp)); [done|].
  by destruct (res (for_each _ scrape_row _ _)).
Qed.


(** ** The whole run *)

Lemma scrape_pages_requests pages tos_links w :
  (trace (scrape_pages pages tos_links w)).*1
    `prefix_of` ((fun page => get (page_url page)) <$> pages) /\
  forall links w' t,
    scrape_pages pages tos_links w = (Ok links, w', t) ->
    t.*1 = (fun page => get (page_url page)) <$> pages /\
    slept w' = slept w + DELAY * Z.of_nat (length pages) /\
    logs w' = logs w /\ session_open w' = session_open w.
Proof.
  revert tos_links w. induction pages as [|p pages IH]; intros acc w.
  - split; [done|]. intros links w' t [= <- <- <-]. cbn. repeat split; lia.
  - unfold scrape_pages. cbn [for_each]. fold (scrape_pages pages).
    destruct (handle (remote w) (get (page_url p))) as [resp srv] eqn:Hget.
    pose proof (scrape_page_run p w resp srv Hget) as Hp.
    destruct (is_error_status (status_code resp)).
    { erewrite bind_raise by (by erewrite bind_raise by exact Hp).
      split; [|done]. cbn. by apply prefix_cons, prefix_nil. }
    destruct (res (for_each _ scrape_row _ _)) as [l|e].
    2:{ erewrite bind_raise by (by erewrite bind_raise by exact Hp).
        split; [|done]. cbn. by apply prefix_cons, prefix_nil. }
    erewrite bind_ok.
    2:{ rewrite (bind_ok _ _ _ _ _ _ Hp). cbn. reflexivity. }
    destruct (IH (acc ++ l) (rested DELAY (answered srv w))) as [Hpre Hok].
    destruct (scrape_pages pages (acc ++ l) (rested DELAY (answered srv w)))
      as [[r w2] t2] eqn:Er.
    cbn in Hpre |- *. split; [by apply prefix_cons|].
    intros links w' t [= -> <- <-].
    destruct (Hok _ _ _ eq_refl) as (Ht & Hs & Hl & Ho). cbn in Hs, Hl, Ho.
    rewrite fmap_cons, Ht. repeat split; try done. lia.
Qed.

Lemma complete_run_shape N w :
  complete (main_on N w) ->
  exists w1 t1 links w2 t2,
    login "YOUR_EMAIL" "YOUR_PASSWORD" (set_session true w) = (Ok true, w1, t1) /\
    scrape_pages (range 1 (N + 1)) [] w1 = (Ok links, w2, t2) /\
    main_on N w = (Ok tt, saved links (set_session false w2), t1 ++ t2).
Proof.
  intros [Hres Hlog]. rewrite main_on_run in Hres, Hlog |- *.
  destruct (login "YOUR_EMAIL" "YOUR_PASSWORD" (set_session true w))
    as [[[[|]|e] w1] t1] eqn:El.
  - rewrite (collect_login_true N _ _ _ El) in Hres, Hlog |- *.
    destruct (scrape_pages (range 1 (N + 1)) [] w1) as [[[links|e] w2] t2] eqn:Es;
      [|done].
    by exists w1, t1, links, w2, t2.
  - rewrite (collect_login_false N _ _ _ El) in Hlog. cbn in Hlog.
    by rewrite last_snoc in Hlog.
  - by rewrite (collect_login_raise N _ _ _ _ El) in Hres.
Qed.

Lemma collect_requests N w :
  exists tok,
    (trace (collect N w)).*1 `prefix_of` full_requests tok N /\
    forall links, res (collect N w) = Ok (Some links) ->
                  (trace (collect N w)).*1 = full_requests tok N.
Proof.
  destruct (login_cases "YOUR_EMAIL" "YOUR_PASSWORD" (set_session true w))
    as (_ & _ & _ & r1 & tok & H).
  exists tok. unfold full_requests.
  destruct (login "YOUR_EMAIL" "YOUR_PASSWORD" (set_session true w))
    as [[r w1] t1] eqn:El. cbn in H.
  destruct H as [[-> Hr]|(r2 & -> & _ & -> & _)].
  - destruct r as [[|]|e]; [done| |].
    + rewrite (collect_login_false N _ _ _ El). cbn.
      split; [by apply prefix_cons, prefix_nil | done].
    + rewrite (collect_login_raise N _ _ _ _ El). cbn.
      split; [by apply prefix_cons, prefix_nil | done].
  - destruct (status_code r2 =? 200).
    + rewrite (collect_login_true N _ _ _ El).
      destruct (scrape_pages_requests (range 1 (N + 1)) [] w1) as [Hpre Hok].
      destruct (scrape_pages (range 1 (N + 1)) [] w1) as [[[links|e] w2] t2] eqn:Es;
        cbn in Hpre |- *.
      * destruct (Hok _ _ _ eq_refl) as (-> & _). by split.
      * split; [by do 2 apply prefix_cons | done].
    + rewrite (collect_login_false N _ _ _ El). cbn.
      split; [by do 2 apply prefix_cons; apply prefix_nil | done].
Qed.

(** X10: every run, however it ends, makes its calls on the session
    in one fixed order and stops early at most: the GET of the login
    page, the POST of the login form, then the GET of page 1, of
    page 2, and so on, each once.  A complete run makes them all, up
    to the last page. *)
Theorem main_requests_in_order N w :
  exists tok,
    (trace (main_on N w)).*1 `prefix_of` full_requests tok N /\
    (complete (main_on N w) -> (trace (main_on N w)).*1 = full_requests tok N).
Proof.
  destruct (collect_requests N w) as (tok & Hpre & Hfull). exists tok.
  rewrite main_on_trace. split; [done|].
  intros [Hres Hlog]. pose proof (collect_none_log N w) as Hnone.
  rewrite main_on_run in Hres, Hlog.
  destruct (collect N w) as [[[[links|]|e] w1] t]; cbn in *; [by eapply Hfull| |done].
  rewrite Hnone in Hlog by done. done.
Qed.

(** X11: a complete run over N pages has paused [DELAY] seconds after
    each page, N times [DELAY] seconds in all, and has logged one
    line, the one that names the saved file. *)
Theorem complete_run_pause_and_log N w :
  0 <= N ->
  complete (main_on N w) ->
  slept (final (main_on N w)) = slept w + DELAY * N /\
  logs (final (main_on N w)) = logs w ++ [(INFO, "Links saved to tos_links.csv")].
Proof.
  intros HN Hc.
  destruct (complete_run_shape N w Hc) as (w1 & t1 & links & w2 & t2 & El & Es & ->).
  destruct (login_cases "YOUR_EMAIL" "YOUR_PASSWORD" (set_session true w))
    as (_ & Hs1 & _ & r1 & tok & H).
  rewrite El in Hs1, H. cbn in Hs1, H.
  destruct (proj2 (scrape_pages_requests _ _ _) _ _ _ Es) as (_ & Hs2 & Hl2 & _).
  unfold range in Hs2. rewrite length_seqZ in Hs2. cbn.
  split; [rewrite Hs2, Hs1; unfold DELAY; lia|].
  rewrite Hl2. destruct H as [[_ Hr]|(r2 & _ & _ & Hr & Hl1)]; [done|].
  injection Hr as Hr. rewrite <- Hr in Hl1. by rewrite Hl1.
Qed.

(** X12: no run touches a file other than the output file, and
    nothing is written before the write phase: when the [with] block
    of [main] ends by the early return or by an exception, whichever
    it is, all files are as before. *)
Theorem main_writes_only_output N w :
  (forall f, f <> filename -> files (final (main_on N w)) !! f = files w !! f) /\
  ((forall links, res (collect N w) <> Ok (Some links)) ->
   files (final (main_on N w)) = files w /\
   res (main_on N w) = match res (collect N w) with
                       | Ok _ => Ok tt
                       | Raise e => Raise e
                       end).
Proof.
  destruct (fail_fast_collect N w) as [Hfiles _].
  rewrite main_on_run.
  destruct (collect N w) as [[[[links|]|e] w1] t]; cbn in *.
  - split.
    + intros f Hf. rewrite lookup_insert_ne by done. by rewrite Hfiles.
    + intros Hn. by destruct (Hn links).
  - split; [by rewrite Hfiles | done].
  - split; [by rewrite Hfiles | done].
Qed.

(** X14: when the login form is answered with a status other than
    200, [main] returns normally after two error lines, the status
    seen and then the exit notice, and with the files as before. *)
Theorem main_refused_login_logs N w r1 tok r2 :
  trace (login "YOUR_EMAIL" "YOUR_PASSWORD" (set_session true w))
  = [(get LOGIN_URL, r1); (post_login "YOUR_EMAIL" "YOUR_PASSWORD" tok, r2)] ->
  status_code r2 <> 200 ->
  res (main_on N w) = Ok tt /\
  logs (final (main_on N w)) =
    logs w ++ [(ERROR, "Login failed with status code "
                         +:+ pretty (status_code r2) +:+ ".");
               (ERROR, "Login failed. Exiting.")] /\
  files (final (main_on N w)) = files w.
Proof.
  intros Ht Hne.
  destruct (login_cases "YOUR_EMAIL" "YOUR_PASSWORD" (set_session true w))
    as (Hf & _ & _ & r1' & tok' & H).
  rewrite Ht in H.
  destruct H as [[[=] _]|(r2' & [= <- <- <-] & _ & Hr & Hl)].
  rewrite (proj2 (Z.eqb_neq _ _) Hne) in Hr, Hl.
  destruct (login "YOUR_EMAIL" "YOUR_PASSWORD" (set_session true w))
    as [[r w1] t1] eqn:El. cbn in Hr, Hl, Hf. subst r.
  rewrite main_on_run, (collect_login_false N _ _ _ El). cbn.
  rewrite Hl, <- app_assoc. done.
Qed.


(** ** Nothing follows a failed page fetch *)

Lemma stops_no_traffic {A} (c : M A) :
  (forall w, trace (c w) = []) -> stops_at_failure c.
Proof. intros Hc w x. rewrite Hc. by intros ?%elem_of_nil. Qed.

Lemma stops_bind {A B} (c : M A) (k : A -> M B) :
  fail_fast c -> stops_at_failure c -> (forall a, stops_at_failure (k a)) ->
  stops_at_failure (c ≫= k).
Proof.
  intros Hf Hc Hk w x. destruct (Hf w) as [_ Hfail]. specialize (Hc w x).
  destruct (c w) as [[[a|e] w1] t1] eqn:E.
  - rewrite (bind_ok _ _ _ _ _ _ E). cbn in *.
    intros [Hx|Hx]%elem_of_app Hbad; [by specialize (Hfail x Hx Hbad)|].
    rewrite last_app. by rewrite (Hk a w1 x Hx Hbad).
  - by rewrite (bind_raise _ _ _ _ _ _ E).
Qed.

Lemma stops_for_each {A S} (xs : list A) (body : A -> S -> M S) s :
  (forall x s, fail_fast (body x s)) -> (forall x s, stops_at_failure (body x s)) ->
  stops_at_failure (for_each xs body s).
Proof.
  intros Hf Hb. revert s. induction xs as [|x xs IH]; intros s; cbn [for_each].
  - by apply stops_no_traffic.
  - apply stops_bind; [apply Hf | apply Hb | apply IH].
Qed.

Lemma stops_scrape_page p : stops_at_failure (scrape_page p).
Proof.
  intros w x. destruct (handle (remote w) (get (page_url p))) as [resp srv] eqn:Hget.
  rewrite (scrape_page_run p w resp srv Hget).
  destruct (is_error_status (status_code resp));
    [|destruct (res (for_each _ scrape_row _ _))];
    by intros ->%list_elem_of_singleton _.
Qed.

Lemma stops_login email password : stops_at_failure (login email password).
Proof.
  intros w x Hx [Hp _]. destruct (login_frame email password w) as [_ Hu].
  by destruct (login_url_not_page x (Hu x Hx)).
Qed.

Lemma stops_collect N : stops_at_failure (collect N).
Proof.
  assert (forall A (c : M A), stops_at_failure c -> stops_at_failure (with_session c))
    as Hwith.
  { intros A c Hc w x. unfold with_session. specialize (Hc (set_session true w) x).
    by destruct (c (set_session true w)) as [[r w1] t1]. }
  apply Hwith, stops_bind; [apply fail_fast_login | apply stops_login|].
  intros [|]; cbn [negb].
  - apply stops_bind; [apply fail_fast_scrape_pages| |by intros; apply stops_no_traffic].
    apply stops_for_each; intros p s.
    + apply fail_fast_bind; [apply fail_fast_scrape_page | intros; apply fail_fast_ret].
    + apply stops_bind; [apply fail_fast_scrape_page | apply stops_scrape_page|].
      by intros; apply stops_no_traffic.
  - apply stops_bind; [apply fail_fast_logging | |]; by intros; apply stops_no_traffic.
Qed.

(** X15: a page fetch answered with an error status is the last
    exchange of the run: no later page is requested. *)
Theorem failed_page_fetch_is_last N w x :
  x ∈ trace (main_on N w) ->
  failed_page_fetch x ->
  last (trace (main_on N w)) = Some x.
Proof. rewrite main_on_trace. apply stops_collect. Qed.

(** ** When the login succeeds *)

(** X17: the login returns true exactly when the login page is
    fetched without an error status, the first token field found has
    a non-empty value, and the form posted with that token is
    answered with status 200. *)
Theorem login_true_iff email password w r1 s1 :
  handle (remote w) (get LOGIN_URL) = (r1, s1) ->
  res (login email password w) = Ok true <->
  is_error_status (status_code r1) = false /\
  exists inp tok,
    find is_token_input (html_parser (text r1)) = Some inp /\
    tag_getitem inp "value" = Some tok /\
    tok <> EmptyString /\
    status_code (handle s1 (post_login email password tok)).1 = 200.
Proof.
  intros Hget. pose proof (fetch_csrf_token_run w r1 s1 Hget) as Hf.
  destruct (is_error_status (status_code r1)).
  { rewrite (login_run_no_token _ _ _ _ _ _ Hf eq_refl). by split; [|intros [? _]]. }
  destruct (find is_token_input (html_parser (text r1))) as [inp|] eqn:Ei.
  2:{ rewrite (login_run_no_token _ _ _ _ _ _ Hf eq_refl).
      split; [done | by intros (_ & ? & ? & ? & _)]. }
  destruct (tag_getitem inp "value") as [tok|] eqn:Ev.
  2:{ rewrite (login_run_no_token _ _ _ _ _ _ Hf eq_refl).
      split; [done|]. intros (_ & inp' & tok' & [= <-] & Hv & _). congruence. }
  destruct (decide (tok = EmptyString)) as [->|Htok].
  { rewrite (login_run_no_token _ _ _ _ _ _ Hf eq_refl).
    split; [done|]. intros (_ & inp' & tok' & [= <-] & Hv & Hne & _). congruence. }
  destruct (handle s1 (post_login email password tok)) as [r2 s2] eqn:Hp.
  rewrite (login_run_token _ _ _ _ _ _ r2 s2 Hf Htok Hp).
  destruct (Z.eqb_spec (status_code r2) 200) as [H200|H200]; cbn.
  - split; [|done]. intros _. split; [done|]. exists inp, tok.
    by rewrite Hp.
  - split; [done|]. intros (_ & inp' & tok' & [= <-] & Hv & _ & H).
    rewrite Ev in Hv. injection Hv as <-. by rewrite Hp in H.
Qed.

(** ** The run of the script as it stands *)

(** X18: a complete run of [main], with its 328 pages, has made 330
    calls on the session, two for the login and one per page, and has
    paused 1640 seconds in all. *)
Theorem main_complete_cost w :
  complete (main w) ->
  length (trace (main w)) = 330%nat /\
  slept (final (main w)) = slept w + 1640.
Proof.
  intros Hc. unfold main in *.
  destruct (complete_run_shape _ w Hc) as (w1 & t1 & links & w2 & t2 & El & Es & Hm).
  destruct (login_cases "YOUR_EMAIL" "YOUR_PASSWORD" (set_session true w))
    as (_ & Hs1 & _ & r1 & tok & H).
  rewrite El in Hs1, H. cbn in Hs1, H.
  destruct (proj2 (scrape_pages_requests _ _ _) _ _ _ Es) as (Ht2 & Hs2 & _).
  apply (f_equal length) in Ht2. rewrite !length_fmap in Ht2.
  rewrite Hm. cbn. rewrite length_app, Ht2, Hs2, Hs1.
  destruct H as [[_ Hr]|(r2 & -> & _)]; [done|]. split; reflexivity.
Qed.

End Scraper.

(** * The properties on concrete sites *)

Import Fixture.

(** The three-page run of the site: two links, none, one. *)
Example three_pages_file :
  files (final (main_on Fixture.handle parser 3 (start good_site ∅))) !! filename
  = Some ("ToS Links" +:+ lineterminator
          +:+ "https://edit.tosdr.org/services/1" +:+ lineterminator
          +:+ "https://edit.tosdr.org/services/2" +:+ lineterminator
          +:+ "https://edit.tosdr.org/services/4" +:+ lineterminator).
Proof. vm_compute. reflexivity. Qed.

Example csv_record_header : csv_record ["ToS Links"] = "ToS Links" +:+ lineterminator.
Proof. reflexivity. Qed.

(** A field with a comma is quoted, and a quote inside it doubled. *)
Example csv_record_quoted :
  csv_record [String "a"%char (String comma (String dquote EmptyString))]
  = String dquote
      (String "a"%char (String comma (String dquote (String dquote (String dquote
         lineterminator))))).
Proof. reflexivity. Qed.

Example page_two_address : page_url 2 = "https://edit.tosdr.org/services?page=2".
Proof. reflexivity. Qed.

(** C1, refuted as stated: the login page answers 500; [login] does
    not return false, it raises, and so does [main]. *)
Lemma login_get_error_counterexample :
  (Fixture.handle down_site (get LOGIN_URL)).1 = status 500 /\
  res (login Fixture.handle parser "YOUR_EMAIL" "YOUR_PASSWORD" (start down_site ∅))
    = Raise (HTTPError 500) /\
  res (login Fixture.handle parser "YOUR_EMAIL" "YOUR_PASSWORD" (start down_site ∅)) <> Ok false /\
  res (main Fixture.handle parser (start down_site ∅))
    = Raise (HTTPError 500).
Proof. vm_compute. repeat split; discriminate. Qed.

(** The site whose login page answers 500. *)
Lemma login_get_error_raises_witness :
  is_error_status 500 = true /\
  res (main_on Fixture.handle parser 3 (start down_site ∅)) = Raise (HTTPError 500) /\
  files (final (main_on Fixture.handle parser 3 (start down_site ∅))) = ∅.
Proof.
  split; [reflexivity|].
  pose proof (login_get_error_raises Fixture.handle parser 3
                "YOUR_EMAIL" "YOUR_PASSWORD" (start down_site ∅)
                (status 500) down_site eq_refl eq_refl) as (_ & Hm & _ & Hf).
  split; [exact Hm | exact Hf].
Defined.

(** C2, the failing input: a listing whose second sortable row has no
    right-aligned cell.  The row is not skipped: the page raises
    AttributeError. *)
Theorem cell_less_row_raises :
  let rows := find_all is_sortable_row page_cell_less in
  length rows = 2%nat /\
  (exists row, rows !! 1%nat = Some row /\ find is_right_cell row = None) /\
  res (scrape_page Fixture.handle parser 1 (start [(GET, SERVICES_URL, ok "cell-less")] ∅))
    = Raise (AttributeError "a").
Proof.
  split; [reflexivity|]. split; [|reflexivity].
  eexists. split; reflexivity.
Qed.

(** The complete run over the three pages of the site. *)
Lemma complete_run_rows_witness :
  complete (main_on Fixture.handle parser 3 (start good_site ∅)) /\
  exists w1 t1 per_page w2,
    login Fixture.handle parser "YOUR_EMAIL" "YOUR_PASSWORD"
      (set_session true (start good_site ∅)) = (Ok true, w1, t1) /\
    pages_scraped Fixture.handle parser (range 1 (3 + 1)) w1 per_page w2 /\
    length per_page = Z.to_nat 3 /\
    files (final (main_on Fixture.handle parser 3 (start good_site ∅))) !! filename
    = Some (csv_text (["ToS Links"] :: ((fun link => [link]) <$> concat per_page))) /\
    length ((fun link => [link]) <$> concat per_page)
    = list_sum (map length per_page).
Proof.
  assert (complete (main_on Fixture.handle parser 3 (start good_site ∅))) as Hc.
  { split; vm_compute; reflexivity. }
  split; [exact Hc|].
  exact (complete_run_rows Fixture.handle parser 3 (start good_site ∅) Hc).
Defined.

(** The site whose second page answers 503. *)
Lemma page_fetch_error_aborts_witness :
  let x := (get (page_url 2), status 503) in
  let o := main_on Fixture.handle parser 3 (start flaky_site ∅) in
  x ∈ trace o /\ failed_page_fetch x /\
  res o = Raise (HTTPError 503) /\ files (final o) = ∅.
Proof.
  intros x o.
  assert (x ∈ trace o) as Hx.
  { apply list_elem_of_lookup_2 with (i := 3%nat). vm_compute. reflexivity. }
  assert (failed_page_fetch x) as Hbad.
  { split; [by exists 2 | reflexivity]. }
  split; [exact Hx|]. split; [exact Hbad|].
  exact (page_fetch_error_aborts Fixture.handle parser 3 (start flaky_site ∅) x Hx Hbad).
Defined.

(** C4, refuted as stated: every page of the listing is answered 304,
    a status outside the 2xx range that [raise_for_status] lets
    through.  The run of [main] does not stop: it returns normally and
    writes the file, with the header alone. *)
Lemma page_fetch_not_modified_counterexample :
  let site :=
    login_routes ++ ((fun page => (GET, page_url page, status 304)) <$> seqZ 1 TOTAL_PAGES) in
  let o := main Fixture.handle Fixture.parser (start site ∅) in
  (get (page_url 1), status 304) ∈ trace o /\
  ~ (200 <= status_code (status 304) < 300) /\
  res o = Ok tt /\
  files (start site ∅) !! filename = None /\
  files (final o) !! filename = Some ("ToS Links" +:+ lineterminator).
Proof.
  intros site o. split.
  { apply list_elem_of_lookup_2 with (i := 2%nat). vm_compute. reflexivity. }
  split; [cbn; lia|].
  repeat split; vm_compute; reflexivity.
Qed.

(** The site that refuses the login with 401; the old file is kept. *)
Lemma main_login_failure_witness :
  let w := start refusing_site {[ filename := "kept" ]} in
  res (login Fixture.handle parser "YOUR_EMAIL" "YOUR_PASSWORD" (set_session true w))
    = Ok false /\
  res (main_on Fixture.handle parser 3 w) = Ok tt /\
  (forall x, x ∈ trace (main_on Fixture.handle parser 3 w) -> ~ page_fetch x) /\
  files (final (main_on Fixture.handle parser 3 w)) = {[ filename := "kept" ]}.
Proof.
  intros w.
  assert (res (login Fixture.handle parser "YOUR_EMAIL" "YOUR_PASSWORD"
                 (set_session true w)) = Ok false) as Hl.
  { vm_compute. reflexivity. }
  split; [exact Hl|].
  destruct (main_login_failure Fixture.handle parser 3 w Hl) as (Hr & _ & Hp & Hf & _).
  split; [exact Hr|]. split; [exact Hp | exact Hf].
Defined.

(** C6, refuted as stated: a listing of one sortable row whose
    right-aligned cell holds an anchor without href.  K = 1 and M = 1,
    yet no link is returned: the lookup of the href raises KeyError. *)
Lemma href_less_anchor_counterexample :
  let rows := find_all is_sortable_row page_href_less in
  length rows = 1%nat /\
  length (filter (fun row => is_Some (row_anchor row)) rows) = 1%nat /\
  res (scrape_page Fixture.handle parser 1
         (start [(GET, SERVICES_URL, ok "href-less")] ∅))
    = Raise (KeyError "href").
Proof. vm_compute. repeat split. Qed.

(** The third page: two sortable rows, one of them with an anchor. *)
Lemma scrape_page_links_witness :
  let w := start good_site ∅ in
  let rows := find_all is_sortable_row page_three in
  let anchored := filter (fun row => is_Some (row_anchor row)) rows in
  length rows = 2%nat /\ length anchored = 1%nat /\
  Forall well_formed_row rows /\
  exists links,
    res (scrape_page Fixture.handle parser 3 w) = Ok links /\
    length links = length anchored /\
    Forall2
      (fun row link =>
         exists a href, row_anchor row = Some a /\
                        tag_getitem a "href" = Some href /\
                        link = BASE_URL +:+ href)
      anchored links.
Proof.
  intros w rows anchored.
  assert (Forall well_formed_row rows) as Hwf.
  { constructor; [|constructor; [|constructor]].
    - split; [by eexists|]. intros a Ha. vm_compute in Ha. discriminate.
    - split; [by eexists|]. intros a Ha. vm_compute in Ha.
      injection Ha as <-. by eexists. }
  split; [reflexivity|]. split; [reflexivity|]. split; [exact Hwf|].
  exact (scrape_page_links Fixture.handle parser 3 w (ok "three") good_site
           eq_refl eq_refl Hwf).
Defined.

(** The request of the second page. *)
Lemma scrape_page_address_witness :
  trace (scrape_page Fixture.handle parser 2 (start good_site ∅))
  = [(get "https://edit.tosdr.org/services?page=2", ok "two")].
Proof.
  exact (scrape_page_address Fixture.handle parser 2 (start good_site ∅) eq_refl).
Defined.

(** The login answered with 401. *)
Lemma login_post_status_witness :
  let w := start refusing_site ∅ in
  let o := login Fixture.handle parser "me" "secret" w in
  res (fetch_csrf_token Fixture.handle parser w) = Ok (Some "tok123") /\
  res o = Ok false /\
  logs (final o) = [(ERROR, "Login failed with status code 401.")] /\
  trace o = [(get LOGIN_URL, ok "login"); (post_login "me" "secret" "tok123", status 401)].
Proof.
  intros w o.
  pose proof (login_post_status Fixture.handle parser "me" "secret" w "tok123"
                (final (fetch_csrf_token Fixture.handle parser w))
                (trace (fetch_csrf_token Fixture.handle parser w))
                (status 401) refusing_site eq_refl ltac:(discriminate) eq_refl)
    as (_ & _ & Hfalse & Htrace).
  destruct Hfalse as [Hres Hlogs]; [discriminate|].
  split; [reflexivity|]. split; [exact Hres|].
  split; [exact Hlogs | exact Htrace].
Defined.

(** Two sites that answer the run alike, over different old files. *)
Lemma identical_answers_identical_file_witness :
  let w := start good_site ∅ in
  let w' := start larger_site {[ filename := "stale" ]} in
  complete (main_on Fixture.handle parser 3 w) /\
  (trace (main_on Fixture.handle parser 3 w')).*2
  = (trace (main_on Fixture.handle parser 3 w)).*2 /\
  complete (main_on Fixture.handle parser 3 w') /\
  files (final (main_on Fixture.handle parser 3 w')) !! filename
  = files (final (main_on Fixture.handle parser 3 w)) !! filename.
Proof.
  intros w w'.
  assert (complete (main_on Fixture.handle parser 3 w)) as Hc.
  { split; vm_compute; reflexivity. }
  assert ((trace (main_on Fixture.handle parser 3 w')).*2
          = (trace (main_on Fixture.handle parser 3 w)).*2) as Ht.
  { vm_compute. reflexivity. }
  split; [exact Hc|]. split; [exact Ht|].
  exact (identical_answers_identical_file Fixture.handle parser 3 w w' Hc Ht).
Defined.

(** The login page whose token field has no value. *)
Lemma fetch_csrf_token_none_or_keyerror_witness :
  let w := start [(GET, LOGIN_URL, ok "login-bare")] ∅ in
  find is_token_input login_page_bare = Some bare_token_input /\
  tag_getitem bare_token_input "value" = None /\
  res (fetch_csrf_token Fixture.handle parser w) = Raise (KeyError "value").
Proof.
  intros w. split; [reflexivity|]. split; [reflexivity|].
  exact (proj2 (fetch_csrf_token_none_or_keyerror Fixture.handle parser w
                  (ok "login-bare") [(GET, LOGIN_URL, ok "login-bare")] eq_refl)
           eq_refl bare_token_input eq_refl eq_refl).
Defined.

(** * The further properties on concrete sites *)

(** Two token fields: the first one is taken. *)
Lemma fetch_csrf_token_first_match_witness :
  let w := start [(GET, LOGIN_URL, ok "login-twice")] ∅ in
  res (fetch_csrf_token Fixture.handle MoreFixtures.parser w) = Ok (Some "first") /\
  logs (final (fetch_csrf_token Fixture.handle MoreFixtures.parser w)) = [].
Proof.
  intros w.
  assert (Forall (fun n => is_token_input n = false)
            [MoreFixtures.login_form_twice; email_input]) as Hpre.
  { by repeat constructor. }
  rewrite (fetch_csrf_token_first_match Fixture.handle MoreFixtures.parser w
             (ok "login-twice") [(GET, LOGIN_URL, ok "login-twice")]
             [MoreFixtures.login_form_twice; email_input]
             MoreFixtures.first_token [MoreFixtures.second_token] "first"
             eq_refl eq_refl eq_refl Hpre eq_refl eq_refl).
  split; reflexivity.
Defined.

(** A login page without the token field. *)
Lemma login_without_token_field_witness :
  let w := start [(GET, LOGIN_URL, ok "login-plain")] ∅ in
  res (login Fixture.handle Fixture.parser "me" "secret" w) = Ok false /\
  logs (final (login Fixture.handle Fixture.parser "me" "secret" w))
  = [(ERROR, "Failed to retrieve CSRF token.")] /\
  length (trace (login Fixture.handle Fixture.parser "me" "secret" w)) = 1%nat.
Proof.
  intros w.
  rewrite (login_without_token_field Fixture.handle Fixture.parser "me" "secret" w
             (ok "login-plain") [(GET, LOGIN_URL, ok "login-plain")]
             eq_refl eq_refl eq_refl).
  repeat split.
Defined.

(** A login page whose token is the empty string. *)
Lemma login_empty_token_silent_witness :
  let w := start [(GET, LOGIN_URL, ok "login-empty")] ∅ in
  res (login Fixture.handle MoreFixtures.parser "me" "secret" w) = Ok false /\
  logs (final (login Fixture.handle MoreFixtures.parser "me" "secret" w)) = [] /\
  length (trace (login Fixture.handle MoreFixtures.parser "me" "secret" w)) = 1%nat.
Proof.
  intros w.
  rewrite (login_empty_token_silent Fixture.handle MoreFixtures.parser "me" "secret" w
             (ok "login-empty") [(GET, LOGIN_URL, ok "login-empty")]
             MoreFixtures.empty_token eq_refl eq_refl eq_refl eq_refl).
  repeat split.
Defined.

(** The third page of the site: it returns its one link. *)
Lemma scrape_page_ok_iff_witness :
  res (scrape_page Fixture.handle Fixture.parser 3 (start good_site ∅))
  = Ok ["https://edit.tosdr.org/services/4"].
Proof.
  apply (proj2 (scrape_page_ok_iff Fixture.handle Fixture.parser 3 (start good_site ∅)
                  (ok "three") good_site _ eq_refl)).
  split; [reflexivity|]. split; [|reflexivity].
  constructor; [|constructor; [|constructor]].
  - split; [by eexists|]. intros a Ha. vm_compute in Ha. discriminate.
  - split; [by eexists|]. intros a Ha. vm_compute in Ha.
    injection Ha as <-. by eexists.
Defined.

(** A linked row, then a row without its right-aligned cell. *)
Lemma scrape_page_first_bad_row_witness :
  let w := start [(GET, SERVICES_URL, ok "cell-less")] ∅ in
  res (scrape_page Fixture.handle Fixture.parser 1 w) = Raise (AttributeError "a") /\
  slept (final (scrape_page Fixture.handle Fixture.parser 1 w)) = 0.
Proof.
  intros w.
  assert (Forall well_formed_row [linked_row "Alpha" "/services/1"]) as Hgood.
  { constructor; [|constructor]. split; [by eexists|].
    intros a Ha. vm_compute in Ha. injection Ha as <-. by eexists. }
  assert (~ well_formed_row (cell_less_row "Broken")) as Hbad.
  { intros [[cell Hc] _]. vm_compute in Hc. discriminate. }
  exact (scrape_page_first_bad_row Fixture.handle Fixture.parser 1 w
           (ok "cell-less") [(GET, SERVICES_URL, ok "cell-less")]
           [linked_row "Alpha" "/services/1"] (cell_less_row "Broken") []
           eq_refl eq_refl eq_refl Hgood Hbad).
Defined.

(** A page whose two rows have no anchor. *)
Lemma scrape_page_no_anchor_witness :
  let w := start [(GET, SERVICES_URL, ok "unlinked")] ∅ in
  res (scrape_page Fixture.handle MoreFixtures.parser 1 w) = Ok [] /\
  slept (final (scrape_page Fixture.handle MoreFixtures.parser 1 w)) = 5.
Proof.
  intros w.
  rewrite (scrape_page_no_anchor Fixture.handle MoreFixtures.parser 1 w
             (ok "unlinked") [(GET, SERVICES_URL, ok "unlinked")] eq_refl eq_refl).
  - split; reflexivity.
  - constructor; [|constructor; [|constructor]]; (split; [by eexists | reflexivity]).
Defined.

(** The complete run over the three pages of the site. *)
Lemma complete_run_pause_and_log_witness :
  complete (main_on Fixture.handle Fixture.parser 3 (start good_site ∅)) /\
  slept (final (main_on Fixture.handle Fixture.parser 3 (start good_site ∅)))
  = slept (start good_site ∅) + DELAY * 3 /\
  logs (final (main_on Fixture.handle Fixture.parser 3 (start good_site ∅)))
  = logs (start good_site ∅) ++ [(INFO, "Links saved to tos_links.csv")].
Proof.
  assert (complete (main_on Fixture.handle Fixture.parser 3 (start good_site ∅))) as Hc.
  { split; vm_compute; reflexivity. }
  split; [exact Hc|].
  exact (complete_run_pause_and_log Fixture.handle Fixture.parser 3 (start good_site ∅)
           ltac:(lia) Hc).
Defined.

(** The site that refuses the login with 401. *)
Lemma main_refused_login_logs_witness :
  let o := main_on Fixture.handle Fixture.parser 3
             (start refusing_site {[ filename := "kept" ]}) in
  res o = Ok tt /\
  logs (final o) = [(ERROR, "Login failed with status code 401.");
                    (ERROR, "Login failed. Exiting.")] /\
  files (final o) = {[ filename := "kept" ]}.
Proof.
  exact (main_refused_login_logs Fixture.handle Fixture.parser 3
           (start refusing_site {[ filename := "kept" ]})
           (ok "login") "tok123" (status 401) eq_refl ltac:(discriminate)).
Defined.

(** The site whose second page answers 503: page 3 is never asked. *)
Lemma failed_page_fetch_is_last_witness :
  let x := (get (page_url 2), status 503) in
  let o := main_on Fixture.handle Fixture.parser 3 (start flaky_site ∅) in
  x ∈ trace o /\ failed_page_fetch x /\ last (trace o) = Some x /\
  length (trace o) = 4%nat.
Proof.
  intros x o.
  assert (x ∈ trace o) as Hx.
  { apply list_elem_of_lookup_2 with (i := 3%nat). vm_compute. reflexivity. }
  assert (failed_page_fetch x) as Hbad.
  { split; [by exists 2 | reflexivity]. }
  split; [exact Hx|]. split; [exact Hbad|].
  split; [|reflexivity].
  exact (failed_page_fetch_is_last Fixture.handle Fixture.parser 3
           (start flaky_site ∅) x Hx Hbad).
Defined.

(** The login of the site succeeds. *)
Lemma login_true_iff_witness :
  res (login Fixture.handle Fixture.parser "me" "secret" (start good_site ∅)) = Ok true.
Proof.
  apply (proj2 (login_true_iff Fixture.handle Fixture.parser "me" "secret"
                  (start good_site ∅) (ok "login") good_site eq_refl)).
  split; [reflexivity|]. exists token_input, "tok123".
  repeat split; [discriminate].
Defined.

(** The script as it stands, against a site with all its pages. *)
Lemma main_complete_cost_witness :
  complete (main Fixture.handle MoreFixtures.parser (start MoreFixtures.full_site ∅)) /\
  length (trace (main Fixture.handle MoreFixtures.parser
                   (start MoreFixtures.full_site ∅))) = 330%nat /\
  slept (final (main Fixture.handle MoreFixtures.parser
                  (start MoreFixtures.full_site ∅)))
  = slept (start MoreFixtures.full_site ∅) + 1640.
Proof.
  assert (complete (main Fixture.handle MoreFixtures.parser
                      (start MoreFixtures.full_site ∅))) as Hc.
  { split; vm_compute; reflexivity. }
  split; [exact Hc|].
  exact (main_complete_cost Fixture.handle MoreFixtures.parser
           (start MoreFixtures.full_site ∅) Hc).
Defined.
